(** * GastoTrack: the persistence layer and the derived metrics

    A shallow embedding of [database.py] (the SQLite-backed expense and budget
    store) and of the pure helpers of [utils.py] (budget status, input
    validation), followed by the properties the specification states about
    them.

    Conventions of the embedding.
    - Amounts (Python floats, SQLite [REAL]) are exact rationals [Q]: rounding,
      infinities and NaN are outside the model, and [float(amount)] is the
      identity.
    - Text (Python [str], SQLite [TEXT]) is [string]; a character is a code
      point below 256.  SQLite compares text with the BINARY collation, which
      is [String.compare].
    - A [datetime.date] is represented by its proleptic Gregorian ordinal
      ([date.toordinal()]): comparing dates compares ordinals and subtracting
      a [timedelta] subtracts days.
    - [CURRENT_TIMESTAMP] is an integer clock reading handed to every write.
    - Each operation opens a connection on the stored database, runs one
      statement inside a transaction, commits or rolls back, and closes; the
      embedding threads the database through explicitly and returns the
      outcome next to the database left on disk.  A statement fails when its
      table does not exist; failures of the file system and of
      [sqlite3.connect] itself are outside the model. *)

From Stdlib Require Import ZArith QArith Qminmax Bool List String Ascii Lia.
From Stdlib Require Import Sorting.Sorted Sorting.Permutation.
Import ListNotations.

#[local] Open Scope string_scope.
#[local] Open Scope Z_scope.

(** * Part I: the model *)

(** ** Python values and exceptions *)

Module Py.

(** The exceptions the two modules raise or let through. *)
Inductive exn : Type :=
| ValueError (msg : string)
| TypeError (msg : string)
| OverflowError (msg : string)
| OperationalError (msg : string).

(** Truth value of a [str]: [not s] holds exactly for the empty string. *)
Definition truthy (s : string) : bool :=
  match s with EmptyString => false | String _ _ => true end.

(** Truth value of an argument that is [None] or a [str]. *)
Definition truthy_opt (o : option string) : bool :=
  match o with None => false | Some s => truthy s end.

(** The text of an argument that is known to be a [str]. *)
Definition str (o : option string) : string :=
  match o with None => EmptyString | Some s => s end.

(** [l.append(x)]. *)
Definition append {A : Type} (l : list A) (x : A) : list A := (l ++ [x])%list.

(** [a <= b] and [a < b] on numbers. *)
Definition le (a b : Q) : bool := Qle_bool a b.
Definition lt (a b : Q) : bool := negb (Qle_bool b a).

(** [min(a, b)]: the first argument unless the second is strictly smaller. *)
Definition min (a b : Q) : Q := if lt b a then b else a.

(** [str.isspace] on one character (code points below 256). *)
Definition isspace (c : ascii) : bool :=
  let n := N_of_ascii c in
  ((9 <=? n) && (n <=? 13) || (28 <=? n) && (n <=? 32) || (n =? 133) || (n =? 160))%N.

Fixpoint lstrip (s : string) : string :=
  match s with
  | EmptyString => EmptyString
  | String c s' => if isspace c then lstrip s' else s
  end.

Fixpoint rev_onto (s acc : string) : string :=
  match s with
  | EmptyString => acc
  | String c s' => rev_onto s' (String c acc)
  end.

Definition rev (s : string) : string := rev_onto s EmptyString.

(** [s.strip()]: leading and trailing whitespace removed. *)
Definition strip (s : string) : string := rev (lstrip (rev (lstrip s))).

End Py.

(** ** Calendar arithmetic of the [datetime] module

    Modelled on CPython's [datetime]: [_is_leap], [_days_in_month],
    [_days_before_year], [_days_before_month], [_ymd2ord], [date.isoformat]
    and [datetime.strptime] for the format [%Y-%m-%d]. *)

Module Calendar.

Record ymd : Type := { year : Z; month : Z; day : Z }.

Definition MINYEAR : Z := 1.
Definition MAXYEAR : Z := 9999.

Definition is_leap (y : Z) : bool :=
  (y mod 4 =? 0) && (negb (y mod 100 =? 0) || (y mod 400 =? 0)).

Definition DAYS_IN_MONTH (m : Z) : Z :=
  match m with
  | 1 => 31 | 2 => 28 | 3 => 31 | 4 => 30 | 5 => 31 | 6 => 30
  | 7 => 31 | 8 => 31 | 9 => 30 | 10 => 31 | 11 => 30 | 12 => 31
  | _ => 0
  end.

Definition DAYS_BEFORE_MONTH (m : Z) : Z :=
  match m with
  | 1 => 0 | 2 => 31 | 3 => 59 | 4 => 90 | 5 => 120 | 6 => 151
  | 7 => 181 | 8 => 212 | 9 => 243 | 10 => 273 | 11 => 304 | 12 => 334
  | _ => 0
  end.

Definition days_in_month (y m : Z) : Z :=
  if (m =? 2) && is_leap y then 29 else DAYS_IN_MONTH m.

Definition days_before_year (y : Z) : Z :=
  let y := y - 1 in y * 365 + y / 4 - y / 100 + y / 400.

Definition days_before_month (y m : Z) : Z :=
  DAYS_BEFORE_MONTH m + (if (2 <? m) && is_leap y then 1 else 0).

Definition ymd2ord (y m d : Z) : Z :=
  days_before_year y + days_before_month y m + d.

(** The check the [date] constructor makes on its fields. *)
Definition check_date_fields (y m d : Z) : bool :=
  (MINYEAR <=? y) && (y <=? MAXYEAR) && (1 <=? m) && (m <=? 12)
  && (1 <=? d) && (d <=? days_in_month y m).

Definition valid (t : ymd) : Prop :=
  check_date_fields (year t) (month t) (day t) = true.

Definition toordinal (t : ymd) : Z := ymd2ord (year t) (month t) (day t).

(** The day after [t] in the calendar. *)
Definition next_day (t : ymd) : ymd :=
  if day t <? days_in_month (year t) (month t)
  then {| year := year t; month := month t; day := day t + 1 |}
  else if month t <? 12
  then {| year := year t; month := month t + 1; day := 1 |}
  else {| year := year t + 1; month := 1; day := 1 |}.

Definition digit_char (n : Z) : ascii := ascii_of_N (48 + Z.to_N n).

(** The last [width] decimal digits of [n], as [%0<width>d] prints a number
    that has at most [width] digits. *)
Fixpoint zero_pad (width : nat) (n : Z) : string :=
  match width with
  | O => EmptyString
  | S w => (zero_pad w (n / 10) ++ String (digit_char (n mod 10)) EmptyString)%string
  end.

(** [date.isoformat()], also what [strftime("%Y-%m-%d")] prints for a year of
    four digits: the text the application stores in the [date] column. *)
Definition isoformat (t : ymd) : string :=
  (zero_pad 4 (year t) ++ "-" ++ zero_pad 2 (month t) ++ "-" ++ zero_pad 2 (day t))%string.

Definition digit_between (lo hi : N) (c : ascii) : bool :=
  let n := N_of_ascii c in ((48 + lo <=? n) && (n <=? 48 + hi))%N.

Definition is_digit (c : ascii) : bool := digit_between 0 9 c.

Definition digit_val (c : ascii) : Z := Z.of_N (N_of_ascii c) - 48.

(** [%Y]: the regular expression [\d\d\d\d]. *)
Definition match_Y (s : string) : option (Z * string) :=
  match s with
  | String a (String b (String c (String d rest))) =>
      if is_digit a && is_digit b && is_digit c && is_digit d
      then Some (1000 * digit_val a + 100 * digit_val b + 10 * digit_val c + digit_val d, rest)
      else None
  | _ => None
  end.

(** [%m]: the regular expression [1[0-2]|0[1-9]|[1-9]], alternatives tried in
    this order. *)
Definition match_m (s : string) : option (Z * string) :=
  match s with
  | String a rest =>
      match rest with
      | String b rest' =>
          if Ascii.eqb a "1" && digit_between 0 2 b then Some (10 + digit_val b, rest')
          else if Ascii.eqb a "0" && digit_between 1 9 b then Some (digit_val b, rest')
          else if digit_between 1 9 a then Some (digit_val a, rest)
          else None
      | EmptyString => if digit_between 1 9 a then Some (digit_val a, rest) else None
      end
  | EmptyString => None
  end.

(** [%d]: the regular expression [3[0-1]|[1-2]\d|0[1-9]|[1-9]| [1-9]]. *)
Definition match_d (s : string) : option (Z * string) :=
  match s with
  | String a rest =>
      match rest with
      | String b rest' =>
          if Ascii.eqb a "3" && digit_between 0 1 b then Some (30 + digit_val b, rest')
          else if digit_between 1 2 a && is_digit b then Some (10 * digit_val a + digit_val b, rest')
          else if Ascii.eqb a "0" && digit_between 1 9 b then Some (digit_val b, rest')
          else if digit_between 1 9 a then Some (digit_val a, rest)
          else if Ascii.eqb a " " && digit_between 1 9 b then Some (digit_val b, rest')
          else None
      | EmptyString => if digit_between 1 9 a then Some (digit_val a, rest) else None
      end
  | EmptyString => None
  end.

Definition expect_dash (s : string) : option string :=
  match s with
  | String c rest => if Ascii.eqb c "-" then Some rest else None
  | EmptyString => None
  end.

(** [datetime.strptime(s, "%Y-%m-%d")]: the text must match the format from
    its first character, nothing may remain after the match, and the fields
    must form a date.  Every failure is a [ValueError]. *)
Definition strptime (s : string) : Py.exn + ymd :=
  let no_match := inl (Py.ValueError "time data does not match format '%Y-%m-%d'") in
  match match_Y s with
  | None => no_match
  | Some (y, s1) =>
      match expect_dash s1 with
      | None => no_match
      | Some s2 =>
          match match_m s2 with
          | None => no_match
          | Some (m, s3) =>
              match expect_dash s3 with
              | None => no_match
              | Some s4 =>
                  match match_d s4 with
                  | None => no_match
                  | Some (d, s5) =>
                      if Py.truthy s5 then inl (Py.ValueError "unconverted data remains")
                      else if check_date_fields y m d
                      then inr {| year := y; month := m; day := d |}
                      else inl (Py.ValueError "day is out of range for month")
                  end
              end
          end
      end
  end.

End Calendar.

(** ** The fragment of SQL the statements use *)

Module Sql.

(** [CURRENT_TIMESTAMP], as a clock reading. *)
Definition timestamp : Type := Z.

(** Comparison of [TEXT] values (BINARY collation). *)
Definition text_le (a b : string) : bool := String.leb a b.
Definition text_lt (a b : string) : bool := String.ltb a b.

Section OrderBy.
Context {A : Type} (leb : A -> A -> bool).

Fixpoint insert_row (x : A) (l : list A) : list A :=
  match l with
  | [] => [x]
  | y :: l' => if leb x y then x :: l else y :: insert_row x l'
  end.

(** [ORDER BY]: the rows sorted by [leb], rows that compare equal kept in
    the order the table scan gives them. *)
Fixpoint order_by (l : list A) : list A :=
  match l with
  | [] => []
  | x :: l' => insert_row x (order_by l')
  end.

End OrderBy.

(** [SELECT DISTINCT]. *)
Definition distinct (l : list string) : list string := nodup string_dec l.

(** Case folding of [LIKE]: the 26 ASCII letters only. *)
Definition tolower (c : ascii) : ascii :=
  let n := N_of_ascii c in
  if ((65 <=? n) && (n <=? 90))%N then ascii_of_N (n + 32) else c.

(** [text LIKE pattern] without an ESCAPE clause: [%] matches any run of
    characters, [_] matches any one character, every other character matches
    itself up to the case of ASCII letters. *)
Fixpoint like (pattern text : string) : bool :=
  match pattern with
  | EmptyString => negb (Py.truthy text)
  | String p pattern' =>
      if Ascii.eqb p "%" then
        (fix any_suffix (t : string) : bool :=
           like pattern' t
           || match t with
              | EmptyString => false
              | String _ t' => any_suffix t'
              end) text
      else
        match text with
        | EmptyString => false
        | String c text' =>
            (Ascii.eqb p "_" || Ascii.eqb (tolower p) (tolower c)) && like pattern' text'
        end
  end.

(** [column LIKE pattern] on a nullable column: NULL never satisfies it. *)
Definition like_null (pattern : string) (column : option string) : bool :=
  match column with
  | None => false
  | Some text => like pattern text
  end.

(** Aggregates over the amounts of a group. *)
Definition sum (l : list Q) : Q := fold_left Qplus l 0%Q.

Definition avg (l : list Q) : Q := (sum l / inject_Z (Z.of_nat (List.length l)))%Q.

Definition minimum (l : list Q) : Q :=
  match l with
  | [] => 0%Q
  | x :: l' => fold_left Qmin l' x
  end.

Definition maximum (l : list Q) : Q :=
  match l with
  | [] => 0%Q
  | x :: l' => fold_left Qmax l' x
  end.

(** A table with an [INTEGER PRIMARY KEY AUTOINCREMENT] column: its rows in
    rowid order and its entry in [sqlite_sequence], the largest rowid the
    table has ever held. *)
Record table (R : Type) : Type := { rows : list R; seq : Z }.
Arguments rows {R} _.
Arguments seq {R} _.

Definition empty_table {R : Type} : table R := {| rows := []; seq := 0 |}.

(** The rowid AUTOINCREMENT gives a new row: one more than the largest rowid
    that is or ever was in the table. *)
Definition next_rowid {R : Type} (rowid : R -> Z) (t : table R) : Z :=
  fold_left Z.max (map rowid (rows t)) (seq t) + 1.

(** [CREATE TABLE IF NOT EXISTS]. *)
Definition create_if_not_exists {R : Type} (t : option (table R)) : option (table R) :=
  match t with
  | None => Some empty_table
  | Some t => Some t
  end.

End Sql.

(** ** database.py *)

Module Database.

(** A row of [expenses]. *)
Module Expense.
Record t : Type := {
  id : Z;
  description : string;
  amount : Q;
  category : string;
  date : string;
  notes : option string;
  created_at : Sql.timestamp
}.
End Expense.

(** A row of [budgets]. *)
Module Budget.
Record t : Type := {
  id : Z;
  category : string;
  amount : Q;
  period : string;
  description : option string;
  created_at : Sql.timestamp;
  updated_at : Sql.timestamp
}.
End Budget.

(** A row of the result of [get_expense_summary]. *)
Module Summary.
Record t : Type := {
  category : string;
  transaction_count : Z;
  total_amount : Q;
  avg_amount : Q;
  min_amount : Q;
  max_amount : Q
}.
End Summary.

(** The file [expenses.db]: each of the two tables, once created. *)
Record database : Type := {
  expenses : option (Sql.table Expense.t);
  budgets : option (Sql.table Budget.t)
}.

(** The file [sqlite3.connect] creates when none exists: no table yet. *)
Definition new_file : database := {| expenses := None; budgets := None |}.

(** A connection: the committed database and the database as the open
    transaction sees it. *)
Record connection : Type := { disk : database; txn : database }.

Definition get_connection (db : database) : connection := {| disk := db; txn := db |}.
Definition commit (conn : connection) : connection := {| disk := txn conn; txn := txn conn |}.
Definition rollback (conn : connection) : connection := {| disk := disk conn; txn := disk conn |}.
Definition close (conn : connection) : database := disk conn.

Definition set_expenses (conn : connection) (t : Sql.table Expense.t) : connection :=
  {| disk := disk conn; txn := {| expenses := Some t; budgets := budgets (txn conn) |} |}.

Definition set_budgets (conn : connection) (t : Sql.table Budget.t) : connection :=
  {| disk := disk conn; txn := {| expenses := expenses (txn conn); budgets := Some t |} |}.

Definition no_such_table (name : string) : Py.exn :=
  Py.OperationalError ("no such table: " ++ name).

(** What a call leaves: its outcome and the database on disk. *)
Definition outcome (A : Type) : Type := ((Py.exn + A) * database)%type.

(** *** The statements *)

(** The two [CREATE TABLE IF NOT EXISTS] statements of [init_db]. *)
Definition execute_create_tables (conn : connection) : connection :=
  {| disk := disk conn;
     txn := {| expenses := Sql.create_if_not_exists (expenses (txn conn));
               budgets := Sql.create_if_not_exists (budgets (txn conn)) |} |}.

(** [INSERT INTO expenses (description, amount, category, date, notes)
    VALUES (?, ?, ?, ?, ?)]. *)
Definition execute_insert_expense (description : string) (amount : Q)
  (category date : string) (notes : option string) (now : Sql.timestamp)
  (conn : connection) : Py.exn + connection :=
  match expenses (txn conn) with
  | None => inl (no_such_table "expenses")
  | Some t =>
      let rowid := Sql.next_rowid Expense.id t in
      let row := {| Expense.id := rowid;
                    Expense.description := description;
                    Expense.amount := amount;
                    Expense.category := category;
                    Expense.date := date;
                    Expense.notes := notes;
                    Expense.created_at := now |} in
      inr (set_expenses conn {| Sql.rows := Sql.rows t ++ [row]; Sql.seq := rowid |})
  end.

(** The row [UPDATE expenses SET description=?, amount=?, category=?, date=?,
    notes=?] writes over [r]. *)
Definition updated_expense (description : string) (amount : Q)
  (category date : string) (notes : option string) (r : Expense.t) : Expense.t :=
  {| Expense.id := Expense.id r;
     Expense.description := description;
     Expense.amount := amount;
     Expense.category := category;
     Expense.date := date;
     Expense.notes := notes;
     Expense.created_at := Expense.created_at r |}.

(** [UPDATE expenses SET ... WHERE id=?], with [cursor.rowcount]. *)
Definition execute_update_expense (expense_id : Z) (description : string) (amount : Q)
  (category date : string) (notes : option string)
  (conn : connection) : Py.exn + (connection * Z) :=
  match expenses (txn conn) with
  | None => inl (no_such_table "expenses")
  | Some t =>
      let hit (r : Expense.t) := Expense.id r =? expense_id in
      let rows' :=
        map (fun r => if hit r then updated_expense description amount category date notes r else r)
            (Sql.rows t) in
      inr (set_expenses conn {| Sql.rows := rows'; Sql.seq := Sql.seq t |},
           Z.of_nat (List.length (filter hit (Sql.rows t))))
  end.

(** [DELETE FROM expenses WHERE id=?], with [cursor.rowcount]. *)
Definition execute_delete_expense (expense_id : Z) (conn : connection)
  : Py.exn + (connection * Z) :=
  match expenses (txn conn) with
  | None => inl (no_such_table "expenses")
  | Some t =>
      let hit (r : Expense.t) := Expense.id r =? expense_id in
      inr (set_expenses conn {| Sql.rows := filter (fun r => negb (hit r)) (Sql.rows t);
                                Sql.seq := Sql.seq t |},
           Z.of_nat (List.length (filter hit (Sql.rows t))))
  end.

(** [INSERT OR REPLACE INTO budgets (category, amount, period, description,
    updated_at) VALUES (?, ?, ?, ?, CURRENT_TIMESTAMP)]: the rows that hold
    the new row's category (the column is UNIQUE) are deleted, then the new
    row is inserted under a fresh rowid, [created_at] taking its default. *)
Definition execute_insert_or_replace_budget (category : string) (amount : Q)
  (period : string) (description : option string) (now : Sql.timestamp)
  (conn : connection) : Py.exn + connection :=
  match budgets (txn conn) with
  | None => inl (no_such_table "budgets")
  | Some t =>
      let rowid := Sql.next_rowid Budget.id t in
      let row := {| Budget.id := rowid;
                    Budget.category := category;
                    Budget.amount := amount;
                    Budget.period := period;
                    Budget.description := description;
                    Budget.created_at := now;
                    Budget.updated_at := now |} in
      let kept := filter (fun r => negb (Budget.category r =? category)%string) (Sql.rows t) in
      inr (set_budgets conn {| Sql.rows := kept ++ [row]; Sql.seq := rowid |})
  end.

(** [DELETE FROM budgets WHERE id=?], with [cursor.rowcount]. *)
Definition execute_delete_budget (budget_id : Z) (conn : connection)
  : Py.exn + (connection * Z) :=
  match budgets (txn conn) with
  | None => inl (no_such_table "budgets")
  | Some t =>
      let hit (r : Budget.t) := Budget.id r =? budget_id in
      inr (set_budgets conn {| Sql.rows := filter (fun r => negb (hit r)) (Sql.rows t);
                               Sql.seq := Sql.seq t |},
           Z.of_nat (List.length (filter hit (Sql.rows t))))
  end.

(** [ORDER BY date DESC, created_at DESC]: [a] may come before [b]. *)
Definition recent_first (a b : Expense.t) : bool :=
  Sql.text_lt (Expense.date b) (Expense.date a)
  || (Expense.date a =? Expense.date b)%string
     && (Expense.created_at b <=? Expense.created_at a).

(** [SELECT * FROM expenses WHERE ... ORDER BY date DESC, created_at DESC],
    read into a data frame (the list of its rows). *)
Definition read_expenses (cond : Expense.t -> bool) (conn : connection)
  : Py.exn + list Expense.t :=
  match expenses (txn conn) with
  | None => inl (no_such_table "expenses")
  | Some t => inr (Sql.order_by recent_first (filter cond (Sql.rows t)))
  end.


(** [SELECT * FROM budgets ORDER BY category]. *)
Definition read_budgets (conn : connection) : Py.exn + list Budget.t :=
  match budgets (txn conn) with
  | None => inl (no_such_table "budgets")
  | Some t =>
      inr (Sql.order_by (fun a b => Sql.text_le (Budget.category a) (Budget.category b))
                        (Sql.rows t))
  end.

(** The aggregates of one group of the summary. *)
Definition summarise (category : string) (selected : list Expense.t) : Summary.t :=
  let amounts :=
    map Expense.amount (filter (fun r => (Expense.category r =? category)%string) selected) in
  {| Summary.category := category;
     Summary.transaction_count := Z.of_nat (List.length amounts);
     Summary.total_amount := Sql.sum amounts;
     Summary.avg_amount := Sql.avg amounts;
     Summary.min_amount := Sql.minimum amounts;
     Summary.max_amount := Sql.maximum amounts |}.

(** [ORDER BY total_amount DESC]. *)
Definition largest_total_first (a b : Summary.t) : bool :=
  Py.le (Summary.total_amount b) (Summary.total_amount a).

(** [SELECT category, COUNT( * ), SUM(amount), AVG(amount), MIN(amount),
    MAX(amount) FROM expenses WHERE ... GROUP BY category
    ORDER BY total_amount DESC]. *)
Definition read_summary (cond : Expense.t -> bool) (conn : connection)
  : Py.exn + list Summary.t :=
  match expenses (txn conn) with
  | None => inl (no_such_table "expenses")
  | Some t =>
      let selected := filter cond (Sql.rows t) in
      let groups := Sql.order_by Sql.text_le (Sql.distinct (map Expense.category selected)) in
      inr (Sql.order_by largest_total_first (map (fun c => summarise c selected) groups))
  end.

(** *** The functions of the module *)

Definition init_db (db : database) : database :=
  let conn := get_connection db in
  let conn := execute_create_tables conn in
  close (commit conn).

Definition add_expense (description : string) (amount : Q) (category date : string)
  (notes : option string) (now : Sql.timestamp) (db : database) : outcome unit :=
  if negb (Py.truthy description) || Py.le amount 0
     || negb (Py.truthy category) || negb (Py.truthy date)
  then (inl (Py.ValueError "All required fields must be provided and amount must be positive"), db)
  else
    let conn := get_connection db in
    match execute_insert_expense description amount category date notes now conn with
    | inr conn' => (inr tt, close (commit conn'))
    | inl e => (inl e, close (rollback conn))
    end.

Definition get_expenses (db : database) : list Expense.t :=
  let conn := get_connection db in
  match read_expenses (fun _ => true) conn with
  | inr df => df
  | inl _ => []
  end.

Definition update_expense (expense_id : Z) (description : string) (amount : Q)
  (category date : string) (notes : option string) (db : database) : outcome unit :=
  if negb (Py.truthy description) || Py.le amount 0
     || negb (Py.truthy category) || negb (Py.truthy date)
  then (inl (Py.ValueError "All required fields must be provided and amount must be positive"), db)
  else
    let conn := get_connection db in
    match execute_update_expense expense_id description amount category date notes conn with
    | inr (conn', rowcount) =>
        if rowcount =? 0
        then (inl (Py.ValueError "Expense not found"), close (rollback conn'))
        else (inr tt, close (commit conn'))
    | inl e => (inl e, close (rollback conn))
    end.

Definition delete_expense (expense_id : Z) (db : database) : outcome unit :=
  let conn := get_connection db in
  match execute_delete_expense expense_id conn with
  | inr (conn', rowcount) =>
      if rowcount =? 0
      then (inl (Py.ValueError "Expense not found"), close (rollback conn'))
      else (inr tt, close (commit conn'))
  | inl e => (inl e, close (rollback conn))
  end.



Definition set_budget (category : string) (amount : Q) (period : string)
  (description : option string) (now : Sql.timestamp) (db : database) : outcome unit :=
  if negb (Py.truthy category) || Py.le amount 0
  then (inl (Py.ValueError "Category and positive amount are required"), db)
  else
    let conn := get_connection db in
    match execute_insert_or_replace_budget category amount period description now conn with
    | inr conn' => (inr tt, close (commit conn'))
    | inl e => (inl e, close (rollback conn))
    end.

Definition get_budgets (db : database) : list Budget.t :=
  let conn := get_connection db in
  match read_budgets conn with
  | inr df => df
  | inl _ => []
  end.

Definition delete_budget (budget_id : Z) (db : database) : outcome unit :=
  let conn := get_connection db in
  match execute_delete_budget budget_id conn with
  | inr (conn', rowcount) =>
      if rowcount =? 0
      then (inl (Py.ValueError "Budget not found"), close (rollback conn'))
      else (inr tt, close (commit conn'))
  | inl e => (inl e, close (rollback conn))
  end.

(** The [WHERE] clause [get_expense_summary] appends to its query and the
    parameters it binds: a bound that is [None] or empty is not applied. *)
Definition summary_filter (start_date end_date : option string) : Expense.t -> bool :=
  if Py.truthy_opt start_date && Py.truthy_opt end_date
  then fun r => Sql.text_le (Py.str start_date) (Expense.date r)
                && Sql.text_le (Expense.date r) (Py.str end_date)
  else if Py.truthy_opt start_date
  then fun r => Sql.text_le (Py.str start_date) (Expense.date r)
  else if Py.truthy_opt end_date
  then fun r => Sql.text_le (Expense.date r) (Py.str end_date)
  else fun _ => true.

Definition get_expense_summary (start_date end_date : option string) (db : database)
  : list Summary.t :=
  let conn := get_connection db in
  match read_summary (summary_filter start_date end_date) conn with
  | inr df => df
  | inl _ => []
  end.

Definition search_expenses (search_term : option string) (db : database) : list Expense.t :=
  if negb (Py.truthy_opt search_term) then get_expenses db
  else
    let conn := get_connection db in
    let search_pattern :=
      ("%" ++ Py.str search_term ++ "%")%string in
    match read_expenses
            (fun r => Sql.like search_pattern (Expense.description r)
                      || Sql.like_null search_pattern (Expense.notes r)
                      || Sql.like search_pattern (Expense.category r))
            conn with
    | inr df => df
    | inl _ => []
    end.

(** *** The stores the application reaches *)

(** A call of one of the writing functions, with its arguments. *)
Inductive call : Type :=
| Call_init_db
| Call_add_expense (description : string) (amount : Q) (category date : string)
    (notes : option string)
| Call_update_expense (expense_id : Z) (description : string) (amount : Q)
    (category date : string) (notes : option string)
| Call_delete_expense (expense_id : Z)
| Call_set_budget (category : string) (amount : Q) (period : string)
    (description : option string)
| Call_delete_budget (budget_id : Z).

(** The database a call made at time [now] leaves on disk. *)
Definition run (c : call) (now : Sql.timestamp) (db : database) : database :=
  match c with
  | Call_init_db => init_db db
  | Call_add_expense description amount category date notes =>
      snd (add_expense description amount category date notes now db)
  | Call_update_expense expense_id description amount category date notes =>
      snd (update_expense expense_id description amount category date notes db)
  | Call_delete_expense expense_id => snd (delete_expense expense_id db)
  | Call_set_budget category amount period description =>
      snd (set_budget category amount period description now db)
  | Call_delete_budget budget_id => snd (delete_budget budget_id db)
  end.

(** The application creates the tables when it starts ([init_db] on whatever
    file it finds, here a new one) and then only calls the functions above. *)
Inductive reachable : database -> Prop :=
| reachable_start : reachable (init_db new_file)
| reachable_call (c : call) (now : Sql.timestamp) (db : database) :
    reachable db -> reachable (run c now db).

(** The rows of the two tables, none when the table was never created. *)
Definition stored_expenses (db : database) : list Expense.t :=
  match expenses db with
  | Some t => Sql.rows t
  | None => []
  end.

Definition stored_budgets (db : database) : list Budget.t :=
  match budgets db with
  | Some t => Sql.rows t
  | None => []
  end.


End Database.

(** ** utils.py *)

Module Utils.

(** The dictionary [calculate_budget_status] returns. *)
Record budget_status : Type := {
  percentage : Q;
  remaining : Q;
  status : string;
  color : string
}.

Definition calculate_budget_status (spent_amount budget_amount : Q) : budget_status :=
  if Py.le budget_amount 0 then
    {| percentage := 0; remaining := 0; status := "No Budget Set"; color := "gray" |}
  else
    let percentage := ((spent_amount / budget_amount) * 100)%Q in
    let remaining := (budget_amount - spent_amount)%Q in
    let '(status, color) :=
      if Py.le 100 percentage then ("Over Budget", "red")
      else if Py.le 90 percentage then ("Near Limit", "orange")
      else if Py.le 75 percentage then ("On Track", "yellow")
      else ("Good", "green") in
    {| percentage := Py.min percentage 100;
       remaining := remaining;
       status := status;
       color := color |}.

(** The [date] argument of [validate_expense_data]: [None], a [str], or a
    [datetime.date] (its ordinal). *)
Inductive date_arg : Type :=
| DateNone
| DateStr (s : string)
| DateObj (ordinal : Z).

Definition date_truthy (date : date_arg) : bool :=
  match date with
  | DateNone => false
  | DateStr s => Py.truthy s
  | DateObj _ => true
  end.

(** The body of the [try]: [parsed_date.date()], or the exception raised on
    the way to it. *)
Definition parse_date (date : date_arg) : Py.exn + Z :=
  match date with
  | DateStr s =>
      match Calendar.strptime s with
      | inr t => inr (Calendar.toordinal t)
      | inl e => inl e
      end
  | DateObj d => inr d
  | DateNone => inl (Py.TypeError "combine() argument 1 must be datetime.date, not NoneType")
  end.

(** [validate_expense_data], [today] being [datetime.now().date()] (the same
    day at each of its three readings).  The subtraction [today - timedelta(days=3650)] raises [OverflowError] when
    its result would fall before [date.min] (ordinal 1), and the [except]
    clause does not catch that exception. *)
Definition validate_expense_data (today : Z) (description : option string)
  (amount : option Q) (category : option string) (date : date_arg)
  : Py.exn + list string :=
  let errors : list string := [] in
  let errors :=
    if negb (Py.truthy_opt description) || (Py.strip (Py.str description) =? "")%string
    then Py.append errors "Description is required" else errors in
  let errors :=
    if match amount with None => true | Some a => Py.le a 0 end
    then Py.append errors "Amount must be greater than 0" else errors in
  let errors :=
    if negb (Py.truthy_opt category) || (Py.strip (Py.str category) =? "")%string
    then Py.append errors "Category is required" else errors in
  let errors :=
    if negb (date_truthy date)
    then Py.append errors "Date is required" else errors in
  match parse_date date with
  | inr parsed_date =>
      let errors :=
        if today <? parsed_date
        then Py.append errors "Date cannot be in the future" else errors in
      if today - 3650 <? 1 then inl (Py.OverflowError "date value out of range")
      else
        let errors :=
          if parsed_date <? today - 3650
          then Py.append errors "Date seems too far in the past" else errors in
        inr errors
  | inl (Py.ValueError _) | inl (Py.TypeError _) => inr (Py.append errors "Invalid date format")
  | inl e => inl e
  end.

End Utils.

(** ** The specification's wording, for comparison with the code *)

Module Spec.

(** A text field that is absent or the empty string. *)
Definition empty (field : option string) : bool := negb (Py.truthy_opt field).

Fixpoint all_space (s : string) : bool :=
  match s with
  | EmptyString => true
  | String c s' => Py.isspace c && all_space s'
  end.

(** A text field that is absent, empty, or made of whitespace only. *)
Definition blank (field : option string) : bool :=
  match field with
  | None => true
  | Some s => all_space s
  end.

(** The rules of the validation helper, each with the message that reports
    its violation, in the order the specification lists them.  [unfilled]
    says when a text field counts as not provided; a date that is missing is
    also one that cannot be parsed. *)
Definition violations (unfilled : option string -> bool) (today : Z)
  (description : option string) (amount : option Q) (category : option string)
  (date : Utils.date_arg) : list string :=
  ((if unfilled description then ["Description is required"] else [])
   ++ (if match amount with None => true | Some a => Qle_bool a 0 end
       then ["Amount must be greater than 0"] else [])
   ++ (if unfilled category then ["Category is required"] else [])
   ++ (if match date with
          | Utils.DateNone => true
          | Utils.DateStr s => (s =? "")%string
          | Utils.DateObj _ => false
          end
       then ["Date is required"] else [])
   ++ match Utils.parse_date date with
      | inl _ => ["Invalid date format"]
      | inr d =>
          (if today <? d then ["Date cannot be in the future"] else [])
          ++ (if d <? today - 3650 then ["Date seems too far in the past"] else [])
      end)%list.

(** "Ordered by date descending, ties broken by [created_at] descending":
    row [a] may stand before row [b]. *)
Definition newer_first (a b : Database.Expense.t) : Prop :=
  String.compare (Database.Expense.date b) (Database.Expense.date a) = Lt
  \/ (Database.Expense.date a = Database.Expense.date b
      /\ Database.Expense.created_at b <= Database.Expense.created_at a).


(** [term] is at the start of [text], up to the case of ASCII letters. *)
Fixpoint starts_with_nocase (term text : string) : bool :=
  match term with
  | EmptyString => true
  | String a term' =>
      match text with
      | EmptyString => false
      | String b text' => Ascii.eqb (Sql.tolower a) (Sql.tolower b) && starts_with_nocase term' text'
      end
  end.

(** [term] occurs somewhere in [text], up to the case of ASCII letters. *)
Fixpoint contains_nocase (term text : string) : bool :=
  starts_with_nocase term text
  || match text with
     | EmptyString => false
     | String _ text' => contains_nocase term text'
     end.

(** The expense mentions [term] in its description, its notes or its
    category. *)
Definition mentions (term : string) (r : Database.Expense.t) : bool :=
  contains_nocase term (Database.Expense.description r)
  || match Database.Expense.notes r with
     | None => false
     | Some text => contains_nocase term text
     end
  || contains_nocase term (Database.Expense.category r).


End Spec.

(** ** A store to try the statements on *)

Module Sample.
Import Database.

(** The example of the specification (a coffee on 2024-01-05 and a bus pass
    on 2024-01-01), then a budget for the first category. *)
Definition store : database :=
  run (Call_set_budget "Food & Dining" 200 "Monthly" None) 3
    (run (Call_add_expense "Bus pass" 60 "Transportation" "2024-01-01" None) 2
       (run (Call_add_expense "Coffee" (9 # 2) "Food & Dining" "2024-01-05" (Some "latte")) 1
          (init_db new_file))).

End Sample.

(** ** app.py: the budget progress of the dashboard *)

Module App.

(** What [show_dashboard] writes beside a budget: [st.error] with
    "Near limit", [st.error] with "Over budget", or [st.success] with
    "On track". *)
Inductive notice : Type :=
| Near_limit
| Over_budget
| On_track.

(** [min(category_spent / budget['amount'], 1.0) if budget['amount'] > 0
    else 0], the value handed to [st.progress]. *)
Definition budget_progress (category_spent amount : Q) : Q :=
  if Py.lt 0 amount then Py.min (category_spent / amount) 1 else 0.

(** The [if]/[elif]/[else] on [progress] that chooses the notice. *)
Definition budget_notice (progress : Q) : notice :=
  if Py.lt (9 # 10) progress then Near_limit
  else if Py.lt 1 progress then Over_budget
  else On_track.

End App.

(** ** Sequences of calls *)

Module Trace.
Import Database.

(** The store after the calls of [calls], each made at its own time, in
    order. *)
Fixpoint runs (calls : list (call * Sql.timestamp)) (db : database) : database :=
  match calls with
  | [] => db
  | (c, now) :: rest => runs rest (run c now db)
  end.






End Trace.

(** ** database.py: the monthly totals *)

Module Reports.
Import Database.

(** A row of the result of [get_monthly_spending]; [month] is NULL for a
    date text that SQLite cannot read as a time. *)
Module Monthly.
Record t : Type := {
  month : option string;
  total_amount : Q;
  transaction_count : Z
}.
End Monthly.

(** Two values of the grouping expression fall in one group: equal texts,
    or NULL both. *)
Definition same_month (a b : option string) : bool :=
  match a, b with
  | Some x, Some y => (x =? y)%string
  | None, None => true
  | _, _ => false
  end.



(** The values of a grouping expression, each once. *)
Fixpoint groups (keys : list (option string)) : list (option string) :=
  match keys with
  | [] => []
  | k :: keys' =>
      if existsb (same_month k) keys' then groups keys' else k :: groups keys'
  end.


Section MonthlySpending.

(** SQLite's [strftime('%Y-%m', date)]: the year and month of a text that
    SQLite reads as a time, NULL for every other text. *)
Variable strftime_Y_m : string -> option string.




End MonthlySpending.

End Reports.

(** ** Date arithmetic of the [datetime] module

    Modelled on CPython's [datetime]: [_ord2ymd] and [date.fromordinal],
    [date.__add__] and [date.__sub__] with a [timedelta] of whole days,
    [date.weekday] and [date.replace].  A [date] object is the record of
    its year, month and day. *)

Module Datetime.
Import Calendar.

Definition DI400Y : Z := 146097.
Definition DI100Y : Z := 36524.
Definition DI4Y : Z := 1461.
Definition MAXORDINAL : Z := 3652059.

(** The end of [_ord2ymd]: month and day of the year's day number [n]
    (counted from 0), [leapyear] telling whether the year is a leap year. *)
Definition month_and_day (leapyear : bool) (n : Z) : Z * Z :=
  let month := Z.shiftr (n + 50) 5 in
  let preceding := DAYS_BEFORE_MONTH month + (if (2 <? month) && leapyear then 1 else 0) in
  let '(month, preceding) :=
    if n <? preceding
    then (month - 1,
          preceding - (DAYS_IN_MONTH (month - 1)
                       + (if (month - 1 =? 2) && leapyear then 1 else 0)))
    else (month, preceding) in
  (month, n - preceding + 1).

(** [_ord2ymd]. *)
Definition ord2ymd (n : Z) : ymd :=
  let n := n - 1 in
  let n400 := n / DI400Y in
  let n := n mod DI400Y in
  let year := n400 * 400 + 1 in
  let n100 := n / DI100Y in
  let n := n mod DI100Y in
  let n4 := n / DI4Y in
  let n := n mod DI4Y in
  let n1 := n / 365 in
  let n := n mod 365 in
  let year := year + n100 * 100 + n4 * 4 + n1 in
  if (n1 =? 4) || (n100 =? 4)
  then {| year := year - 1; month := 12; day := 31 |}
  else
    let leapyear := (n1 =? 3) && (negb (n4 =? 24) || (n100 =? 3)) in
    let '(month, day) := month_and_day leapyear n in
    {| year := year; month := month; day := day |}.

Definition fromordinal (n : Z) : ymd := ord2ymd n.

(** [t + timedelta(days=days)]. *)
Definition add_days (t : ymd) (days : Z) : Py.exn + ymd :=
  let o := toordinal t + days in
  if (0 <? o) && (o <=? MAXORDINAL)
  then inr (fromordinal o)
  else inl (Py.OverflowError "date value out of range").

(** [t - timedelta(days=days)]. *)
Definition sub_days (t : ymd) (days : Z) : Py.exn + ymd := add_days t (- days).

(** [t.weekday()]: 0 for Monday. *)
Definition weekday (t : ymd) : Z := (toordinal t + 6) mod 7.

(** [t.replace(day=d)] and [t.replace(month=m, day=d)]. *)
Definition replace_day (t : ymd) (d : Z) : Py.exn + ymd :=
  if check_date_fields (year t) (month t) d
  then inr {| year := year t; month := month t; day := d |}
  else inl (Py.ValueError "day is out of range for month").

Definition replace_month_day (t : ymd) (m d : Z) : Py.exn + ymd :=
  if check_date_fields (year t) m d
  then inr {| year := year t; month := m; day := d |}
  else inl (Py.ValueError "day is out of range for month").

(** What [month_and_day] has to satisfy at the day number [n]: a month, a
    day of that month, and [n] days before it in the year. *)
Definition month_and_day_ok (leap : bool) (n : Z) : bool :=
  let '(m, d) := month_and_day leap n in
  (1 <=? m) && (m <=? 12) && (1 <=? d)
  && (d <=? DAYS_IN_MONTH m + (if (m =? 2) && leap then 1 else 0))
  && (DAYS_BEFORE_MONTH m + (if (2 <? m) && leap then 1 else 0) + d =? n + 1).

(** Sequencing of steps that may raise. *)
Definition bind {A B : Type} (step : Py.exn + A) (next : A -> Py.exn + B) : Py.exn + B :=
  match step with
  | inl e => inl e
  | inr a => next a
  end.

End Datetime.

(** ** utils.py: the predefined date ranges *)

Module Ranges.
Import Calendar Datetime.

(** [get_last_month_range], [today] being [datetime.now().date()]. *)
Definition get_last_month_range (today : ymd) : Py.exn + (ymd * ymd) :=
  bind (replace_day today 1) (fun first_day_this_month =>
  bind (sub_days first_day_this_month 1) (fun last_day_last_month =>
  bind (replace_day last_day_last_month 1) (fun first_day_last_month =>
  inr (first_day_last_month, last_day_last_month)))).

(** [get_date_range_options]: the dictionary as the list of its items, in
    the order of the literal, which is also the order in which the values
    are computed.  [get_last_month_range] reads the clock again; both
    readings are taken to fall on the same day [today]. *)
Definition get_date_range_options (today : ymd) : Py.exn + list (string * (ymd * ymd)) :=
  bind (sub_days today (weekday today)) (fun this_week =>
  bind (replace_day today 1) (fun this_month =>
  bind (get_last_month_range today) (fun last_month =>
  bind (sub_days today 30) (fun last_30_days =>
  bind (sub_days today 90) (fun last_90_days =>
  bind (replace_month_day today 1 1) (fun this_year =>
  inr [ ("Today", (today, today));
        ("This Week", (this_week, today));
        ("This Month", (this_month, today));
        ("Last Month", last_month);
        ("Last 30 Days", (last_30_days, today));
        ("Last 90 Days", (last_90_days, today));
        ("This Year", (this_year, today)) ])))))).

(** The last day of the month before the month of [t], written out by
    cases: the date the result of [get_last_month_range] is compared with. *)
Definition end_of_previous_month (t : ymd) : ymd :=
  if month t =? 1
  then {| year := year t - 1; month := 12; day := 31 |}
  else {| year := year t; month := month t - 1;
          day := days_in_month (year t) (month t - 1) |}.

End Ranges.

(** ** app.py: what the forms and buttons do to the database

    A handler is modelled by the database it leaves, as a function of the
    values its widgets returned.  The handlers catch the exceptions of the
    calls they make, so a call that raises leaves the database as the call
    left it. *)

Module Forms.
Import Database.

(** [date.strftime("%Y-%m-%d")] on the [datetime.date] of a date widget.
    For a year from 1000 on this is the ISO text of the date; below that the
    C library decides whether the year is padded, which is why [date_input]
    below asks for a year of four digits. *)
Definition strftime_Y_m_d (date : Calendar.ymd) : string := Calendar.isoformat date.

(** The values [st.date_input] hands to the script: dates of years with four
    digits. *)
Definition date_input (date : Calendar.ymd) : Prop :=
  Calendar.valid date /\ 1000 <= Calendar.year date.

Inductive event : Type :=
| Script_run
| Add_expense_submitted (description : string) (amount : Q) (category : string)
    (date : Calendar.ymd) (notes : string)
| Update_expense_submitted (expense_id : Z) (description : string) (amount : Q)
    (category : string) (date : Calendar.ymd) (notes : string)
| Delete_expense_confirmed (expense_id : Z)
| Budget_submitted (category : string) (amount : Q) (period description : string)
| Delete_budget_clicked (budget_id : Z).

(** The database after the script has handled [e] at time [now]:
    [database.init_db()] at the top of the script, the submit branch of
    [add_expense_page], of [edit_expense] and of the budget form, the delete
    button of an expense once [st.confirm] has answered yes, and the delete
    button of a budget. *)
Definition handle (e : event) (now : Sql.timestamp) (db : database) : database :=
  match e with
  | Script_run => init_db db
  | Add_expense_submitted description amount category date notes =>
      if Py.truthy description && Py.lt 0 amount && Py.truthy category
      then snd (add_expense description amount category (strftime_Y_m_d date)
                  (Some notes) now db)
      else db
  | Update_expense_submitted expense_id description amount category date notes =>
      snd (update_expense expense_id description amount category (strftime_Y_m_d date)
             (Some notes) db)
  | Delete_expense_confirmed expense_id => snd (delete_expense expense_id db)
  | Budget_submitted category amount period description =>
      if Py.truthy category && Py.lt 0 amount
      then snd (set_budget category amount period (Some description) now db)
      else db
  | Delete_budget_clicked budget_id => snd (delete_budget budget_id db)
  end.

(** The date text a call of the database module is given, if it takes one. *)
Definition call_date (c : call) : option string :=
  match c with
  | Call_add_expense _ _ _ date _ => Some date
  | Call_update_expense _ _ _ _ date _ => Some date
  | _ => None
  end.

(** The date an event carries, if it carries one. *)
Definition date_of (e : event) : option Calendar.ymd :=
  match e with
  | Add_expense_submitted _ _ _ date _ => Some date
  | Update_expense_submitted _ _ _ _ date _ => Some date
  | _ => None
  end.

(** The databases the application produces from a new file: the script runs
    once, then handles events whose dates come from a date widget. *)
Inductive reachable : database -> Prop :=
| reachable_start : reachable (init_db new_file)
| reachable_event (e : event) (now : Sql.timestamp) (db : database) :
    reachable db ->
    (forall date, date_of e = Some date -> date_input date) ->
    reachable (handle e now db).

(** A store filled through the forms: two expenses entered in the order of
    their dates reversed, one corrected afterwards, and a budget. *)
Definition sample : database :=
  handle (Budget_submitted "Food & Dining" 200 "Monthly" "") 4
    (handle (Update_expense_submitted 1 "Coffee" (9 # 2) "Food & Dining"
               {| Calendar.year := 2024; Calendar.month := 1; Calendar.day := 5 |} "latte") 3
       (handle (Add_expense_submitted "Bus pass" 60 "Transportation"
                  {| Calendar.year := 2024; Calendar.month := 1; Calendar.day := 10 |} "") 2
          (handle (Add_expense_submitted "Cofee" (9 # 2) "Food & Dining"
                     {| Calendar.year := 2023; Calendar.month := 12; Calendar.day := 31 |} "") 1
             (init_db new_file)))).

End Forms.

(** * Part II: properties *)

#[local] Open Scope list_scope.

(** ** Comparisons of numbers *)

Lemma py_le_iff (a b : Q) : Py.le a b = true <-> (a <= b)%Q.
Proof. apply Qle_bool_iff. Qed.

Lemma py_le_false_iff (a b : Q) : Py.le a b = false <-> (b < a)%Q.
Proof.
  unfold Py.le. rewrite <- not_true_iff_false, Qle_bool_iff.
  split; [apply Qnot_le_lt | apply Qlt_not_le].
Qed.

Lemma py_lt_iff (a b : Q) : Py.lt a b = true <-> (a < b)%Q.
Proof. unfold Py.lt. rewrite negb_true_iff. apply py_le_false_iff. Qed.

Lemma py_lt_false_iff (a b : Q) : Py.lt a b = false <-> (a >= b)%Q.
Proof. unfold Py.lt. rewrite negb_false_iff. apply py_le_iff. Qed.



Lemma truthy_false_iff (s : string) : Py.truthy s = false <-> s = "".
Proof. destruct s; simpl; split; congruence. Qed.


(** ** Budget status *)


Lemma budget_status_set (spent budget : Q) :
  (0 < budget)%Q ->
  let ratio := (spent / budget * 100)%Q in
  let r := Utils.calculate_budget_status spent budget in
  Utils.percentage r = Py.min ratio 100
  /\ Utils.remaining r = (budget - spent)%Q
  /\ Utils.status r =
       (if Py.le 100 ratio then "Over Budget"
        else if Py.le 90 ratio then "Near Limit"
        else if Py.le 75 ratio then "On Track"
        else "Good").
Proof.
  intros H ratio r. subst r ratio. unfold Utils.calculate_budget_status.
  apply py_le_false_iff in H. rewrite H.
  destruct (Py.le 100 _); [|destruct (Py.le 90 _); [|destruct (Py.le 75 _)]];
    simpl; auto.
Qed.


(** ** Input validation *)

Lemma all_space_rev_onto (s acc : string) :
  Spec.all_space (Py.rev_onto s acc) = Spec.all_space s && Spec.all_space acc.
Proof.
  revert acc. induction s as [|c s IH]; intros acc; simpl.
  - reflexivity.
  - rewrite IH. simpl.
    destruct (Py.isspace c), (Spec.all_space s), (Spec.all_space acc); reflexivity.
Qed.

Lemma all_space_rev (s : string) : Spec.all_space (Py.rev s) = Spec.all_space s.
Proof. unfold Py.rev. rewrite all_space_rev_onto. simpl. apply andb_true_r. Qed.

Lemma rev_onto_empty (s acc : string) : Py.rev_onto s acc = "" -> s = "" /\ acc = "".
Proof.
  revert acc. induction s as [|c s IH]; intros acc H; simpl in H.
  - auto.
  - apply IH in H. destruct H as [_ H]. discriminate.
Qed.

Lemma rev_empty_iff (s : string) : Py.rev s = "" <-> s = "".
Proof.
  split.
  - intros H. now apply rev_onto_empty in H.
  - intros ->. reflexivity.
Qed.

Lemma lstrip_all_space (s : string) : Spec.all_space (Py.lstrip s) = Spec.all_space s.
Proof.
  induction s as [|c s IH]; simpl; [reflexivity|].
  destruct (Py.isspace c) eqn:E; simpl; [exact IH | now rewrite E].
Qed.

Lemma lstrip_empty_iff (s : string) : Py.lstrip s = "" <-> Spec.all_space s = true.
Proof.
  induction s as [|c s IH]; simpl.
  - tauto.
  - destruct (Py.isspace c); simpl; [exact IH | split; discriminate].
Qed.

(** [s.strip() == ""] exactly when [s] holds nothing but whitespace. *)
Lemma strip_empty_iff (s : string) : Py.strip s = "" <-> Spec.all_space s = true.
Proof.
  unfold Py.strip.
  rewrite rev_empty_iff, lstrip_empty_iff, all_space_rev, lstrip_all_space.
  tauto.
Qed.

Lemma not_provided_blank (field : option string) :
  negb (Py.truthy_opt field) || (Py.strip (Py.str field) =? "")%string = Spec.blank field.
Proof.
  destruct field as [s|]; simpl; [|reflexivity].
  destruct (Spec.all_space s) eqn:E.
  - apply strip_empty_iff in E. rewrite E. apply orb_true_r.
  - destruct s as [|c s]; [discriminate|]. simpl.
    apply String.eqb_neq. intros H. apply strip_empty_iff in H. congruence.
Qed.

Lemma date_truthy_missing (date : Utils.date_arg) :
  negb (Utils.date_truthy date)
  = match date with
    | Utils.DateNone => true
    | Utils.DateStr s => (s =? "")%string
    | Utils.DateObj _ => false
    end.
Proof. destruct date as [|[|c s]|d]; reflexivity. Qed.

(** Every failure of [strptime] is a [ValueError]. *)
Lemma strptime_raises (s : string) (e : Py.exn) :
  Calendar.strptime s = inl e -> exists msg, e = Py.ValueError msg.
Proof.
  unfold Calendar.strptime.
  destruct (Calendar.match_Y s) as [[y s1]|]; [|intros [= <-]; eauto].
  destruct (Calendar.expect_dash s1) as [s2|]; [|intros [= <-]; eauto].
  destruct (Calendar.match_m s2) as [[m s3]|]; [|intros [= <-]; eauto].
  destruct (Calendar.expect_dash s3) as [s4|]; [|intros [= <-]; eauto].
  destruct (Calendar.match_d s4) as [[d s5]|]; [|intros [= <-]; eauto].
  destruct (Py.truthy s5); [intros [= <-]; eauto|].
  destruct (Calendar.check_date_fields y m d); [discriminate|intros [= <-]; eauto].
Qed.

(** Only [strptime] and the [None] argument fail in the [try], with the
    exceptions the [except] clause names. *)
Lemma parse_date_raises (date : Utils.date_arg) (e : Py.exn) :
  Utils.parse_date date = inl e ->
  (exists msg, e = Py.ValueError msg) \/ (exists msg, e = Py.TypeError msg).
Proof.
  destruct date as [|s|d]; simpl.
  - intros [= <-]. right. eauto.
  - destruct (Calendar.strptime s) as [e'|t] eqn:E; [|discriminate].
    intros [= <-]. left. eapply strptime_raises; eauto.
  - discriminate.
Qed.

Lemma validate_is_violations (today : Z) description amount category date :
  3650 < today ->
  Utils.validate_expense_data today description amount category date
  = inr (Spec.violations Spec.blank today description amount category date).
Proof.
  intros Htoday.
  unfold Utils.validate_expense_data, Spec.violations, Py.append, Py.le.
  rewrite !not_provided_blank, date_truthy_missing.
  assert (Hov : (today - 3650 <? 1) = false) by (apply Z.ltb_ge; lia).
  set (b1 := Spec.blank description).
  set (b2 := match amount with None => true | Some a => Qle_bool a 0 end).
  set (b3 := Spec.blank category).
  set (b4 := match date with
             | Utils.DateNone => true
             | Utils.DateStr s => (s =? "")%string
             | Utils.DateObj _ => false
             end).
  clearbody b1 b2 b3 b4.
  destruct (Utils.parse_date date) as [e|d] eqn:Hp.
  - destruct (parse_date_raises _ _ Hp) as [[msg ->]|[msg ->]];
      destruct b1, b2, b3, b4; reflexivity.
  - rewrite Hov.
    destruct (today <? d), (d <? today - 3650), b1, b2, b3, b4; reflexivity.
Qed.

Lemma violations_of_filled_fields (today : Z) description category (a : Q) (d : Z) :
  Spec.blank description = false ->
  Spec.blank category = false ->
  Spec.violations Spec.blank today description (Some a) category (Utils.DateObj d)
  = ((if Qle_bool a 0 then ["Amount must be greater than 0"] else [])
     ++ (if today <? d then ["Date cannot be in the future"] else [])
     ++ (if d <? today - 3650 then ["Date seems too far in the past"] else []))%list.
Proof.
  intros Hd Hc. unfold Spec.violations. rewrite Hd, Hc. reflexivity.
Qed.

(** C4, as stated, fails: a description of one space is not empty, so none
    of the stated rules is violated, yet the helper reports it. *)
Lemma validate_expense_data_reports_whitespace :
  Utils.validate_expense_data 738890 (Some " ") (Some 5%Q) (Some "Food") (Utils.DateObj 738890)
  = inr ["Description is required"]
  /\ Spec.empty (Some " ") = false
  /\ Spec.violations Spec.empty 738890 (Some " ") (Some 5%Q) (Some "Food") (Utils.DateObj 738890)
     = [].
Proof. repeat split; reflexivity. Qed.

(** C4, amended.  Whenever [today - 3650 days] is a date, the helper returns
    one message for every violated rule, all of them and in order, never
    stopping at the first: description absent, empty or whitespace only;
    amount absent or not above 0; category absent, empty or whitespace only;
    date missing; date not parseable (a missing date is reported under both);
    date after today; date more than 3650 days before today.  With the other
    fields valid it accepts amount 0.01, today's date and the date 3650 days
    ago, and it rejects an amount of 0 or less, tomorrow's date, the date
    3651 days ago and an empty description. *)
Theorem validate_expense_data_spec :
  forall today : Z,
    3650 < today ->
    (forall description amount category date,
        Utils.validate_expense_data today description amount category date
        = inr (Spec.violations Spec.blank today description amount category date))
    /\ (forall description category,
          Spec.blank description = false ->
          Spec.blank category = false ->
          let validate := Utils.validate_expense_data today description in
          validate (Some (1 # 100)%Q) category (Utils.DateObj today) = inr []
          /\ validate (Some 1%Q) category (Utils.DateObj (today - 3650)) = inr []
          /\ (forall a : Q,
                 (a <= 0)%Q ->
                 validate (Some a) category (Utils.DateObj today)
                 = inr ["Amount must be greater than 0"])
          /\ validate (Some 1%Q) category (Utils.DateObj (today + 1))
             = inr ["Date cannot be in the future"]
          /\ validate (Some 1%Q) category (Utils.DateObj (today - 3651))
             = inr ["Date seems too far in the past"])
    /\ (forall amount category date,
          exists rest,
            Utils.validate_expense_data today (Some "") amount category date
            = inr ("Description is required" :: rest)).
Proof.
  intros today Htoday. split; [|split].
  - intros. now apply validate_is_violations.
  - intros description category Hd Hc validate. subst validate.
    rewrite !validate_is_violations by assumption.
    assert (Hamt : forall a : Q, (a <= 0)%Q ->
              Utils.validate_expense_data today description (Some a) category
                (Utils.DateObj today) = inr ["Amount must be greater than 0"]).
    { intros a Ha. rewrite validate_is_violations by assumption.
      rewrite violations_of_filled_fields by assumption.
      apply Qle_bool_iff in Ha. rewrite Ha, Z.ltb_irrefl.
      replace (today <? today - 3650) with false by (symmetry; apply Z.ltb_ge; lia).
      reflexivity. }
    rewrite !violations_of_filled_fields by assumption.
    rewrite Z.ltb_irrefl.
    replace (today <? today - 3650) with false by (symmetry; apply Z.ltb_ge; lia).
    replace (today - 3650 <? today - 3650) with false by (symmetry; apply Z.ltb_irrefl).
    replace (today <? today + 1) with true by (symmetry; apply Z.ltb_lt; lia).
    replace (today + 1 <? today - 3650) with false by (symmetry; apply Z.ltb_ge; lia).
    replace (today <? today - 3651) with false by (symmetry; apply Z.ltb_ge; lia).
    replace (today - 3651 <? today - 3650) with true by (symmetry; apply Z.ltb_lt; lia).
    repeat split; try reflexivity. exact Hamt.
  - intros amount category date.
    rewrite validate_is_violations by assumption.
    unfold Spec.violations. simpl. eexists. reflexivity.
Qed.

Lemma validate_expense_data_spec_witness :
  3650 < 738890
  /\ Utils.validate_expense_data 738890 (Some "Coffee") (Some (1 # 100)%Q)
       (Some "Food & Dining") (Utils.DateStr "2014-01-07") = inr []
  /\ Utils.validate_expense_data 738890 (Some "Coffee") (Some 0%Q)
       (Some "Food & Dining") (Utils.DateStr "2024-01-06")
     = inr ["Amount must be greater than 0"; "Date cannot be in the future"].
Proof.
  split; [lia|].
  destruct (validate_expense_data_spec 738890 ltac:(lia)) as [H _].
  rewrite !H. split; reflexivity.
Defined.

(** ** Rowids *)





(** ** What each call does to the store *)

Section Calls.
Import Database.










End Calls.

Import Database.






(** ** The reachable stores are consistent *)










(** ** Amounts on disk are positive *)



(** ** Rows addressed by their key *)


Lemma filter_everything {A : Type} (p : A -> bool) (l : list A) :
  (forall x, In x l -> p x = true) -> filter p l = l.
Proof.
  induction l as [|x l IH]; simpl; intros H; [reflexivity|].
  rewrite (H x (or_introl eq_refl)). f_equal. apply IH. intros y Hy. apply H. now right.
Qed.



(** ** Update and delete of an expense *)



(** ** Budgets *)






(** ** ORDER BY *)

Section OrderByFacts.
Context {A : Type} (leb : A -> A -> bool).

Lemma insert_row_permutation (x : A) (l : list A) :
  Permutation (x :: l) (Sql.insert_row leb x l).
Proof.
  induction l as [|y l IH]; simpl; [apply Permutation_refl|].
  destruct (leb x y); [apply Permutation_refl|].
  eapply perm_trans; [apply perm_swap|]. now apply perm_skip.
Qed.

(** The result of [ORDER BY] holds every row of its input exactly once. *)
Lemma order_by_permutation (l : list A) : Permutation l (Sql.order_by leb l).
Proof.
  induction l as [|x l IH]; simpl; [constructor|].
  eapply perm_trans; [apply perm_skip, IH | apply insert_row_permutation].
Qed.

Lemma order_by_In (l : list A) (x : A) : In x (Sql.order_by leb l) <-> In x l.
Proof.
  split; apply Permutation_in;
    [apply Permutation_sym|]; apply order_by_permutation.
Qed.

Hypothesis leb_total : forall a b, leb a b = true \/ leb b a = true.
Hypothesis leb_trans : forall a b c, leb a b = true -> leb b c = true -> leb a c = true.

Lemma insert_row_sorted (x : A) (l : list A) :
  StronglySorted (fun a b => leb a b = true) l ->
  StronglySorted (fun a b => leb a b = true) (Sql.insert_row leb x l).
Proof.
  induction l as [|y l IH]; simpl; intros Hs.
  - repeat constructor.
  - apply StronglySorted_inv in Hs. destruct Hs as [Hl Hy].
    destruct (leb x y) eqn:E.
    + constructor; [now constructor|].
      constructor; [exact E|].
      eapply Forall_impl; [|exact Hy]. intros z Hz. now apply (leb_trans x y z).
    + constructor; [now apply IH|].
      apply Forall_forall. intros z Hz.
      apply (Permutation_in z (Permutation_sym (insert_row_permutation x l))) in Hz.
      destruct Hz as [<- | Hz].
      * destruct (leb_total x y) as [H | H]; [congruence | exact H].
      * rewrite Forall_forall in Hy. now apply Hy.
Qed.

(** The result of [ORDER BY] is in order: each row may come before every
    row after it. *)
Lemma order_by_sorted (l : list A) :
  StronglySorted (fun a b => leb a b = true) (Sql.order_by leb l).
Proof.
  induction l as [|x l IH]; simpl; [constructor | now apply insert_row_sorted].
Qed.

End OrderByFacts.

Lemma StronglySorted_weaken {A : Type} (R R' : A -> A -> Prop) (l : list A) :
  (forall a b, R a b -> R' a b) -> StronglySorted R l -> StronglySorted R' l.
Proof.
  intros Himp Hs. induction Hs as [|x l Hl IH Hx]; constructor; [exact IH|].
  eapply Forall_impl; [|exact Hx]. intros y. apply Himp.
Qed.

(** ** Order of text *)

Lemma ascii_compare_lt_trans (a b c : ascii) :
  Ascii.compare a b = Lt -> Ascii.compare b c = Lt -> Ascii.compare a c = Lt.
Proof.
  unfold Ascii.compare. rewrite !N.compare_lt_iff. apply N.lt_trans.
Qed.

Lemma ascii_compare_refl (a : ascii) : Ascii.compare a a = Eq.
Proof. unfold Ascii.compare. apply N.compare_refl. Qed.

Lemma text_compare_refl (s : string) : String.compare s s = Eq.
Proof.
  induction s as [|c s IH]; simpl; [reflexivity|]. now rewrite ascii_compare_refl.
Qed.

Lemma text_compare_lt_trans (s t u : string) :
  String.compare s t = Lt -> String.compare t u = Lt -> String.compare s u = Lt.
Proof.
  revert t u. induction s as [|a s IH]; intros [|b t] [|c u]; simpl; try congruence.
  destruct (Ascii.compare a b) eqn:Eab; try discriminate;
    destruct (Ascii.compare b c) eqn:Ebc; try discriminate; intros Hst Htu.
  - apply Ascii.compare_eq_iff in Eab, Ebc. subst.
    rewrite ascii_compare_refl. now apply (IH t u).
  - apply Ascii.compare_eq_iff in Eab. subst. now rewrite Ebc.
  - apply Ascii.compare_eq_iff in Ebc. subst. now rewrite Eab.
  - now rewrite (ascii_compare_lt_trans a b c).
Qed.

Lemma text_compare_gt_lt (s t : string) :
  String.compare s t = Gt <-> String.compare t s = Lt.
Proof.
  rewrite (String.compare_antisym s t).
  destruct (String.compare t s); simpl; split; congruence.
Qed.

Lemma text_le_trans (s t u : string) :
  Sql.text_le s t = true -> Sql.text_le t u = true -> Sql.text_le s u = true.
Proof.
  unfold Sql.text_le, String.leb.
  destruct (String.compare s t) eqn:Est; try discriminate;
    destruct (String.compare t u) eqn:Etu; try discriminate; intros _ _.
  - apply String.compare_eq_iff in Est, Etu. subst. now rewrite text_compare_refl.
  - apply String.compare_eq_iff in Est. subst. now rewrite Etu.
  - apply String.compare_eq_iff in Etu. subst. now rewrite Est.
  - now rewrite (text_compare_lt_trans s t u).
Qed.


Lemma text_lt_iff (s t : string) : Sql.text_lt s t = true <-> String.compare s t = Lt.
Proof.
  unfold Sql.text_lt, String.ltb.
  destruct (String.compare s t); split; congruence.
Qed.


(** ** Listing the expenses *)

Lemma recent_first_iff (a b : Expense.t) :
  recent_first a b = true <-> Spec.newer_first a b.
Proof.
  unfold recent_first, Spec.newer_first.
  rewrite orb_true_iff, andb_true_iff, text_lt_iff, String.eqb_eq, Z.leb_le. tauto.
Qed.

Lemma recent_first_total (a b : Expense.t) :
  recent_first a b = true \/ recent_first b a = true.
Proof.
  rewrite !recent_first_iff. unfold Spec.newer_first.
  destruct (String.compare (Expense.date a) (Expense.date b)) eqn:E.
  - apply String.compare_eq_iff in E.
    destruct (Z.le_ge_cases (Expense.created_at a) (Expense.created_at b)); auto.
  - auto.
  - apply text_compare_gt_lt in E. auto.
Qed.

Lemma recent_first_trans (a b c : Expense.t) :
  recent_first a b = true -> recent_first b c = true -> recent_first a c = true.
Proof.
  rewrite !recent_first_iff. unfold Spec.newer_first.
  intros [Hab | [Hab Tab]] [Hbc | [Hbc Tbc]].
  - left. now apply (text_compare_lt_trans _ (Expense.date b)).
  - left. now rewrite <- Hbc.
  - left. now rewrite Hab.
  - right. split; [congruence | lia].
Qed.

Lemma filter_true {R : Type} (l : list R) : filter (fun _ => true) l = l.
Proof. apply filter_everything. reflexivity. Qed.

Lemma get_expenses_eq (db : database) :
  get_expenses db = Sql.order_by recent_first (stored_expenses db).
Proof.
  unfold get_expenses, read_expenses, stored_expenses. simpl.
  destruct (expenses db) as [t|]; [now rewrite filter_true | reflexivity].
Qed.

(** C6.  [get_expenses] returns every stored expense exactly once, a row
    standing before another only if its date is later, or the dates are
    equal and its [created_at] is not earlier.  It returns the empty list,
    and raises nothing, when the table is empty and when the read fails (as
    it does on a file without the table). *)
Theorem get_expenses_lists_all :
  forall db : database,
    Permutation (stored_expenses db) (get_expenses db)
    /\ StronglySorted Spec.newer_first (get_expenses db)
    /\ (stored_expenses db = [] -> get_expenses db = [])
    /\ (forall e : Py.exn,
           read_expenses (fun _ => true) (get_connection db) = inl e ->
           get_expenses db = [])
    /\ (read_expenses (fun _ => true) (get_connection new_file)
        = inl (Py.OperationalError "no such table: expenses")
        /\ get_expenses new_file = []).
Proof.
  intros db. repeat split.
  - rewrite get_expenses_eq. apply order_by_permutation.
  - rewrite get_expenses_eq.
    apply (StronglySorted_weaken (fun a b => recent_first a b = true)).
    + intros a b. apply recent_first_iff.
    + apply order_by_sorted; [apply recent_first_total | apply recent_first_trans].
  - intros H. rewrite get_expenses_eq, H. reflexivity.
  - intros e H. unfold get_expenses. now rewrite H.
Qed.

(** ** Listing the categories *)





(** ** ISO dates compare as text the way they compare as dates *)

Lemma text_compare_app (a b s t : string) :
  String.length a = String.length b ->
  String.compare (a ++ s) (b ++ t)
  = match String.compare a b with
    | Eq => String.compare s t
    | c => c
    end.
Proof.
  revert b. induction a as [|x a IH]; intros [|y b]; simpl; try discriminate.
  - reflexivity.
  - intros [= Hlen]. destruct (Ascii.compare x y); auto.
Qed.

Lemma text_length_app (a b : string) :
  String.length (a ++ b) = (String.length a + String.length b)%nat.
Proof. induction a as [|x a IH]; simpl; [reflexivity | now rewrite IH]. Qed.

Lemma zero_pad_length (width : nat) (n : Z) :
  String.length (Calendar.zero_pad width n) = width.
Proof.
  revert n. induction width as [|w IH]; intros n; simpl; [reflexivity|].
  rewrite text_length_app, IH. simpl. lia.
Qed.

Lemma digit_char_compare (x y : Z) :
  0 <= x < 10 -> 0 <= y < 10 ->
  Ascii.compare (Calendar.digit_char x) (Calendar.digit_char y) = (x ?= y).
Proof.
  intros Hx Hy. unfold Ascii.compare, Calendar.digit_char.
  rewrite !N_ascii_embedding by lia.
  destruct (Z.compare_spec x y) as [E | E | E];
    [apply N.compare_eq_iff | apply N.compare_lt_iff | apply N.compare_gt_iff]; lia.
Qed.

Lemma compare_by_last_digit (a b : Z) :
  match a / 10 ?= b / 10 with
  | Eq => a mod 10 ?= b mod 10
  | c => c
  end = (a ?= b).
Proof.
  pose proof (Z.div_mod a 10 ltac:(lia)) as Ha.
  pose proof (Z.div_mod b 10 ltac:(lia)) as Hb.
  pose proof (Z.mod_pos_bound a 10 ltac:(lia)) as Ba.
  pose proof (Z.mod_pos_bound b 10 ltac:(lia)) as Bb.
  symmetry.
  destruct (Z.compare_spec (a / 10) (b / 10)) as [E | E | E].
  - destruct (Z.compare_spec (a mod 10) (b mod 10)) as [F | F | F];
      [apply Z.compare_eq_iff | apply Z.compare_lt_iff | apply Z.compare_gt_iff]; lia.
  - apply Z.compare_lt_iff. lia.
  - apply Z.compare_gt_iff. lia.
Qed.

(** Numbers printed with the same number of digits compare as text the way
    they compare as numbers. *)
Lemma zero_pad_compare (width : nat) (a b : Z) :
  0 <= a < 10 ^ Z.of_nat width -> 0 <= b < 10 ^ Z.of_nat width ->
  String.compare (Calendar.zero_pad width a) (Calendar.zero_pad width b) = (a ?= b).
Proof.
  revert a b. induction width as [|w IH]; intros a b Ha Hb.
  - simpl in *. assert (a = 0) by lia. assert (b = 0) by lia. now subst.
  - rewrite Nat2Z.inj_succ, Z.pow_succ_r in Ha, Hb by lia.
    cbn [Calendar.zero_pad].
    rewrite text_compare_app by now rewrite !zero_pad_length.
    rewrite IH.
    + simpl. rewrite digit_char_compare by (apply Z.mod_pos_bound; lia).
      rewrite <- (compare_by_last_digit a b).
      destruct (a / 10 ?= b / 10); [|reflexivity|reflexivity].
      now destruct (a mod 10 ?= b mod 10).
    + split; [apply Z.div_pos; lia | apply Z.div_lt_upper_bound; lia].
    + split; [apply Z.div_pos; lia | apply Z.div_lt_upper_bound; lia].
Qed.

Lemma valid_fields (t : Calendar.ymd) :
  Calendar.valid t ->
  1 <= Calendar.year t <= 9999
  /\ 1 <= Calendar.month t <= 12
  /\ 1 <= Calendar.day t <= Calendar.days_in_month (Calendar.year t) (Calendar.month t).
Proof.
  unfold Calendar.valid, Calendar.check_date_fields, Calendar.MINYEAR, Calendar.MAXYEAR.
  rewrite !andb_true_iff, !Z.leb_le. tauto.
Qed.

Lemma days_in_month_bound (y m : Z) : 1 <= m <= 12 -> 28 <= Calendar.days_in_month y m <= 31.
Proof.
  intros Hm. unfold Calendar.days_in_month.
  assert (Hcases : m = 1 \/ m = 2 \/ m = 3 \/ m = 4 \/ m = 5 \/ m = 6 \/ m = 7
                   \/ m = 8 \/ m = 9 \/ m = 10 \/ m = 11 \/ m = 12) by lia.
  destruct (Calendar.is_leap y);
    repeat (destruct Hcases as [-> | Hcases]; [simpl; lia|]); subst; simpl; lia.
Qed.

Lemma text_compare_dash (s t : string) :
  String.compare ("-" ++ s) ("-" ++ t) = String.compare s t.
Proof. reflexivity. Qed.

(** Two ISO dates compare as text field by field: year, then month, then
    day. *)
Lemma isoformat_compare (a b : Calendar.ymd) :
  Calendar.valid a -> Calendar.valid b ->
  String.compare (Calendar.isoformat a) (Calendar.isoformat b)
  = match Calendar.year a ?= Calendar.year b with
    | Eq => match Calendar.month a ?= Calendar.month b with
            | Eq => Calendar.day a ?= Calendar.day b
            | c => c
            end
    | c => c
    end.
Proof.
  intros Ha Hb.
  apply valid_fields in Ha, Hb. destruct Ha as (Hya & Hma & Hda), Hb as (Hyb & Hmb & Hdb).
  pose proof (days_in_month_bound (Calendar.year a) (Calendar.month a) Hma).
  pose proof (days_in_month_bound (Calendar.year b) (Calendar.month b) Hmb).
  unfold Calendar.isoformat.
  rewrite text_compare_app by now rewrite !zero_pad_length.
  rewrite zero_pad_compare by (simpl; lia).
  destruct (Calendar.year a ?= Calendar.year b); [|reflexivity|reflexivity].
  rewrite text_compare_dash.
  rewrite text_compare_app by now rewrite !zero_pad_length.
  rewrite zero_pad_compare by (simpl; lia).
  destruct (Calendar.month a ?= Calendar.month b); [|reflexivity|reflexivity].
  rewrite text_compare_dash.
  apply zero_pad_compare; simpl; lia.
Qed.

(** ** Days of the calendar *)

Lemma days_before_year_succ (y : Z) :
  Calendar.days_before_year (y + 1)
  = Calendar.days_before_year y + 365 + (if Calendar.is_leap y then 1 else 0).
Proof.
  unfold Calendar.days_before_year, Calendar.is_leap.
  replace (y + 1 - 1) with y by lia.
  destruct (Z.eqb_spec (y mod 4) 0), (Z.eqb_spec (y mod 100) 0), (Z.eqb_spec (y mod 400) 0);
    simpl; Z.div_mod_to_equations; lia.
Qed.

Lemma days_before_year_mono (y y' : Z) :
  y <= y' -> Calendar.days_before_year y <= Calendar.days_before_year y'.
Proof.
  intros H. unfold Calendar.days_before_year. Z.div_mod_to_equations. lia.
Qed.

Lemma month_cases (m : Z) :
  1 <= m <= 12 ->
  m = 1 \/ m = 2 \/ m = 3 \/ m = 4 \/ m = 5 \/ m = 6
  \/ m = 7 \/ m = 8 \/ m = 9 \/ m = 10 \/ m = 11 \/ m = 12.
Proof. lia. Qed.

Lemma days_before_month_succ (y m : Z) :
  1 <= m <= 11 ->
  Calendar.days_before_month y (m + 1)
  = Calendar.days_before_month y m + Calendar.days_in_month y m.
Proof.
  intros Hm. unfold Calendar.days_before_month, Calendar.days_in_month.
  assert (Hc : 1 <= m <= 12) by lia. apply month_cases in Hc.
  destruct (Calendar.is_leap y);
    repeat (destruct Hc as [-> | Hc]; [reflexivity|]); lia.
Qed.

Lemma days_before_month_mono (y m m' : Z) :
  1 <= m -> m <= m' -> m' <= 12 ->
  Calendar.days_before_month y m <= Calendar.days_before_month y m'.
Proof.
  intros H1 H2 H3.
  replace m' with (m + Z.of_nat (Z.to_nat (m' - m))) in * by lia.
  induction (Z.to_nat (m' - m)) as [|k IH]; [rewrite Z.add_0_r; lia|].
  rewrite Nat2Z.inj_succ in *.
  replace (m + Z.succ (Z.of_nat k)) with (m + Z.of_nat k + 1) in * by lia.
  rewrite days_before_month_succ by lia.
  pose proof (days_in_month_bound y (m + Z.of_nat k) ltac:(lia)).
  specialize (IH ltac:(lia) ltac:(lia)). lia.
Qed.

(** The last day of December is day 365 of the year, or 366. *)
Lemma days_in_year (y : Z) :
  Calendar.days_before_month y 12 + Calendar.days_in_month y 12
  = 365 + (if Calendar.is_leap y then 1 else 0).
Proof.
  unfold Calendar.days_before_month, Calendar.days_in_month.
  destruct (Calendar.is_leap y); reflexivity.
Qed.

(** [next_day] is the date whose ordinal is one more. *)
Lemma toordinal_next_day (t : Calendar.ymd) :
  Calendar.valid t ->
  Calendar.toordinal (Calendar.next_day t) = Calendar.toordinal t + 1.
Proof.
  intros Hv. apply valid_fields in Hv. destruct Hv as (Hy & Hm & Hd).
  unfold Calendar.next_day, Calendar.toordinal, Calendar.ymd2ord.
  destruct (Z.ltb_spec (Calendar.day t)
              (Calendar.days_in_month (Calendar.year t) (Calendar.month t))) as [Hlt | Hge];
    [simpl; lia|].
  destruct (Z.ltb_spec (Calendar.month t) 12) as [Hm12 | Hm12]; simpl.
  - rewrite days_before_month_succ by lia. lia.
  - assert (Em : Calendar.month t = 12) by lia. rewrite Em in *.
    rewrite days_before_year_succ.
    pose proof (days_in_year (Calendar.year t)).
    change (Calendar.days_before_month (Calendar.year t + 1) 1) with 0. lia.
Qed.

Lemma day_of_year_bound (t : Calendar.ymd) :
  Calendar.valid t ->
  1 <= Calendar.days_before_month (Calendar.year t) (Calendar.month t) + Calendar.day t
    <= 365 + (if Calendar.is_leap (Calendar.year t) then 1 else 0).
Proof.
  intros Hv. apply valid_fields in Hv. destruct Hv as (Hy & Hm & Hd).
  pose proof (days_before_month_mono (Calendar.year t) 1 (Calendar.month t)
                ltac:(lia) ltac:(lia) ltac:(lia)) as Hlo.
  change (Calendar.days_before_month (Calendar.year t) 1) with 0 in Hlo.
  split; [lia|].
  rewrite <- days_in_year.
  destruct (Z.eq_dec (Calendar.month t) 12) as [E | E]; [rewrite E in *; lia|].
  pose proof (days_before_month_mono (Calendar.year t) (Calendar.month t + 1) 12
                ltac:(lia) ltac:(lia) ltac:(lia)) as Hhi.
  rewrite days_before_month_succ in Hhi by lia.
  pose proof (days_in_month_bound (Calendar.year t) 12 ltac:(lia)). lia.
Qed.

(** Valid dates compare field by field the way their ordinals compare. *)
Lemma toordinal_compare (a b : Calendar.ymd) :
  Calendar.valid a -> Calendar.valid b ->
  match Calendar.year a ?= Calendar.year b with
  | Eq => match Calendar.month a ?= Calendar.month b with
          | Eq => Calendar.day a ?= Calendar.day b
          | c => c
          end
  | c => c
  end = (Calendar.toordinal a ?= Calendar.toordinal b).
Proof.
  intros Ha Hb.
  pose proof (day_of_year_bound a Ha) as Da. pose proof (day_of_year_bound b Hb) as Db.
  apply valid_fields in Ha, Hb. destruct Ha as (Hya & Hma & Hda), Hb as (Hyb & Hmb & Hdb).
  destruct a as [ya ma da], b as [yb mb db]. unfold Calendar.toordinal, Calendar.ymd2ord.
  cbn [Calendar.year Calendar.month Calendar.day] in *. symmetry.
  destruct (Z.compare_spec ya yb) as [Ey | Ey | Ey].
  - subst yb. destruct (Z.compare_spec ma mb) as [Em | Em | Em].
    + subst mb. destruct (Z.compare_spec da db);
        [apply Z.compare_eq_iff | apply Z.compare_lt_iff | apply Z.compare_gt_iff]; lia.
    + apply Z.compare_lt_iff.
      pose proof (days_before_month_mono ya (ma + 1) mb ltac:(lia) ltac:(lia) ltac:(lia)) as H.
      rewrite days_before_month_succ in H by lia. lia.
    + apply Z.compare_gt_iff.
      pose proof (days_before_month_mono ya (mb + 1) ma ltac:(lia) ltac:(lia) ltac:(lia)) as H.
      rewrite days_before_month_succ in H by lia. lia.
  - apply Z.compare_lt_iff.
    pose proof (days_before_year_mono (ya + 1) yb ltac:(lia)) as H.
    rewrite days_before_year_succ in H. lia.
  - apply Z.compare_gt_iff.
    pose proof (days_before_year_mono (yb + 1) ya ltac:(lia)) as H.
    rewrite days_before_year_succ in H. lia.
Qed.

(** The text order of ISO dates is the order of the calendar. *)
Lemma isoformat_order (a b : Calendar.ymd) :
  Calendar.valid a -> Calendar.valid b ->
  String.compare (Calendar.isoformat a) (Calendar.isoformat b)
  = (Calendar.toordinal a ?= Calendar.toordinal b).
Proof.
  intros Ha Hb. rewrite isoformat_compare by assumption. now apply toordinal_compare.
Qed.

(** ** Aggregates *)







(** [SUM] adds the amounts one after the other. *)
Lemma sum_snoc (l : list Q) (x : Q) : Sql.sum (l ++ [x]) = (Sql.sum l + x)%Q.
Proof. unfold Sql.sum. now rewrite fold_left_app. Qed.




(** ** The summary by category *)

Lemma text_le_not_gt (s t : string) :
  Sql.text_le s t = true <-> String.compare s t <> Gt.
Proof.
  unfold Sql.text_le, String.leb.
  destruct (String.compare s t); split; congruence.
Qed.


Lemma isoformat_truthy (day : Calendar.ymd) : Py.truthy (Calendar.isoformat day) = true.
Proof.
  destruct (Calendar.isoformat day) eqn:E; [|reflexivity].
  apply (f_equal String.length) in E. unfold Calendar.isoformat in E.
  rewrite !text_length_app, !zero_pad_length in E. discriminate.
Qed.






(** The example of the specification: two expenses in two categories give
    two groups of one transaction each, the larger total first; and the
    bounds at work on the same store. *)
Example summary_of_sample_store :
  get_expense_summary None None Sample.store
  = [ {| Summary.category := "Transportation"; Summary.transaction_count := 1;
         Summary.total_amount := 60; Summary.avg_amount := 60;
         Summary.min_amount := 60; Summary.max_amount := 60 |};
      {| Summary.category := "Food & Dining"; Summary.transaction_count := 1;
         Summary.total_amount := 9 # 2; Summary.avg_amount := 9 # 2;
         Summary.min_amount := 9 # 2; Summary.max_amount := 9 # 2 |} ]
  /\ map Summary.category
        (get_expense_summary (Some "2024-01-01") (Some "2024-01-05") Sample.store)
     = ["Transportation"; "Food & Dining"]
  /\ map Summary.category
        (get_expense_summary (Some "2024-01-02") (Some "2024-01-05") Sample.store)
     = ["Food & Dining"]
  /\ map Summary.category
        (get_expense_summary (Some "2024-01-01") (Some "2024-01-04") Sample.store)
     = ["Transportation"]
  /\ map Summary.category (get_expense_summary (Some "2024-01-02") None Sample.store)
     = ["Food & Dining"]
  /\ map Summary.category (get_expense_summary None (Some "2024-01-04") Sample.store)
     = ["Transportation"].
Proof. repeat split; reflexivity. Qed.

(** ** Searching *)






Section OrderByFilter.
Context {A : Type} (leb : A -> A -> bool) (keep : A -> bool).
Hypothesis leb_total : forall a b, leb a b = true \/ leb b a = true.
Hypothesis leb_trans : forall a b c, leb a b = true -> leb b c = true -> leb a c = true.




End OrderByFilter.




(** C8 on a term with a wildcard: the term "_" is not contained in any
    field of the two expenses of the sample store, yet [search_expenses]
    returns both, because [LIKE] reads the underscore as "any character". *)
Theorem search_expenses_reads_wildcards :
  search_expenses (Some "_") Sample.store = get_expenses Sample.store
  /\ map Expense.description (get_expenses Sample.store) = ["Coffee"; "Bus pass"]
  /\ (forall r, In r (stored_expenses Sample.store) -> Spec.mentions "_" r = false)
  /\ search_expenses (Some "c%e") Sample.store
     = filter (fun r => (Expense.description r =? "Coffee")%string) (get_expenses Sample.store).
Proof.
  repeat split.
  intros r Hr. simpl in Hr. destruct Hr as [<- | [<- | []]]; reflexivity.
Qed.

(** ** Further properties of the store *)

(** X3.  [init_db] creates what is missing and touches nothing else: after it
    both tables exist, the rows are the rows from before, and a second call
    changes nothing. *)
Theorem init_db_keeps_data :
  forall db : database,
    (exists te tb, expenses (init_db db) = Some te /\ budgets (init_db db) = Some tb)
    /\ stored_expenses (init_db db) = stored_expenses db
    /\ stored_budgets (init_db db) = stored_budgets db
    /\ init_db (init_db db) = init_db db.
Proof.
  intros [[te|] [tb|]]; unfold stored_expenses, stored_budgets; simpl;
    repeat split; eauto.
Qed.





(** X5.  [get_budgets] returns every stored budget exactly once, in ascending
    order of the category, and the empty list when the read fails. *)
Theorem get_budgets_lists_all :
  forall db : database,
    Permutation (stored_budgets db) (get_budgets db)
    /\ StronglySorted
         (fun a b => String.compare (Budget.category a) (Budget.category b) <> Gt)
         (get_budgets db)
    /\ (forall e : Py.exn, read_budgets (get_connection db) = inl e -> get_budgets db = []).
Proof.
  intros db.
  assert (E : get_budgets db
              = Sql.order_by (fun a b => Sql.text_le (Budget.category a) (Budget.category b))
                  (stored_budgets db)).
  { unfold get_budgets, read_budgets, stored_budgets. simpl.
    destruct (budgets db); reflexivity. }
  split; [|split].
  - rewrite E. apply order_by_permutation.
  - rewrite E.
    apply (StronglySorted_weaken
             (fun a b => Sql.text_le (Budget.category a) (Budget.category b) = true)).
    + intros a b. apply text_le_not_gt.
    + apply order_by_sorted.
      * intros a b. apply String.leb_total.
      * intros a b c. apply text_le_trans.
  - intros e H. unfold get_budgets. now rewrite H.
Qed.

(** ** The dashboard's budget notice *)

Lemma py_min_upper (a b : Q) : (Py.min a b <= b)%Q.
Proof.
  unfold Py.min. destruct (Py.lt b a) eqn:E; [apply Qle_refl|].
  now apply py_lt_false_iff in E.
Qed.

Lemma py_min_lower (a b c : Q) : (c <= a)%Q -> (c <= b)%Q -> (c <= Py.min a b)%Q.
Proof. intros Ha Hb. unfold Py.min. now destruct (Py.lt b a). Qed.

Lemma ratio_nonneg (a b : Q) : (0 <= a)%Q -> (0 < b)%Q -> (0 <= a / b)%Q.
Proof.
  intros Ha Hb. apply Qle_shift_div_l; [exact Hb|]. now rewrite Qmult_0_l.
Qed.

Lemma ratio_at_least_one (a b : Q) : (0 < b)%Q -> (b <= a)%Q -> (1 <= a / b)%Q.
Proof.
  intros Hb Hab. apply Qle_shift_div_l; [exact Hb|]. now rewrite Qmult_1_l.
Qed.

(** X6.  The dashboard never writes "Over budget": the progress is capped at
    1 before it is tested, and the test for "above 0.9" comes first.  The
    progress lies between 0 and 1 when the spending is not negative, and a
    category whose spending has reached or passed a positive budget is
    written up as "Near limit" while [calculate_budget_status] labels the
    same figures "Over Budget". *)
Theorem dashboard_never_over_budget :
  forall category_spent amount : Q,
    let progress := App.budget_progress category_spent amount in
    App.budget_notice progress <> App.Over_budget
    /\ (progress <= 1)%Q
    /\ ((0 <= category_spent)%Q -> (0 <= progress)%Q)
    /\ ((amount <= 0)%Q -> progress = 0%Q /\ App.budget_notice progress = App.On_track)
    /\ ((0 < amount)%Q -> (amount <= category_spent)%Q ->
        App.budget_notice progress = App.Near_limit
        /\ Utils.status (Utils.calculate_budget_status category_spent amount) = "Over Budget").
Proof.
  intros spent amount progress.
  assert (Hcap : (progress <= 1)%Q).
  { unfold progress, App.budget_progress.
    destruct (Py.lt 0 amount); [apply py_min_upper | discriminate]. }
  split; [|split; [exact Hcap | split; [|split]]].
  - unfold App.budget_notice.
    destruct (Py.lt (9 # 10) progress); [discriminate|].
    destruct (Py.lt 1 progress) eqn:E; [|discriminate].
    apply py_lt_iff in E. exfalso. exact (Qlt_not_le _ _ E Hcap).
  - intros Hs. unfold progress, App.budget_progress.
    destruct (Py.lt 0 amount) eqn:E; [|apply Qle_refl].
    apply py_lt_iff in E. apply py_min_lower; [now apply ratio_nonneg | discriminate].
  - intros Ha. unfold progress, App.budget_progress.
    replace (Py.lt 0 amount) with false; [split; reflexivity|].
    symmetry. now apply py_lt_false_iff.
  - intros Ha Hover.
    pose proof (ratio_at_least_one spent amount Ha Hover) as Hratio.
    split.
    + unfold progress, App.budget_progress.
      apply py_lt_iff in Ha. rewrite Ha.
      unfold App.budget_notice.
      replace (Py.lt (9 # 10) (Py.min (spent / amount) 1)) with true; [reflexivity|].
      symmetry. apply py_lt_iff.
      apply Qlt_le_trans with (y := 1%Q); [reflexivity|].
      apply py_min_lower; [exact Hratio | apply Qle_refl].
    + destruct (budget_status_set spent amount Ha) as (_ & _ & Hs).
      rewrite Hs.
      replace (Py.le 100 (spent / amount * 100)) with true; [reflexivity|].
      symmetry. apply py_le_iff.
      setoid_replace (100 : Q) with (1 * 100)%Q at 1 by reflexivity.
      apply Qmult_le_compat_r; [exact Hratio | discriminate].
Qed.

(** ** Searching with any term *)












(** ** The text of a date, read back *)

Lemma digit_char_code (k : Z) :
  0 <= k < 10 -> N_of_ascii (Calendar.digit_char k) = (48 + Z.to_N k)%N.
Proof. intros Hk. unfold Calendar.digit_char. apply N_ascii_embedding. lia. Qed.

Lemma is_digit_digit_char (n : Z) : Calendar.is_digit (Calendar.digit_char (n mod 10)) = true.
Proof.
  pose proof (Z.mod_pos_bound n 10 ltac:(lia)) as Hk.
  unfold Calendar.is_digit, Calendar.digit_between. cbv zeta.
  rewrite digit_char_code by assumption.
  apply andb_true_iff. split; apply N.leb_le; lia.
Qed.

Lemma digit_val_digit_char (n : Z) :
  Calendar.digit_val (Calendar.digit_char (n mod 10)) = n mod 10.
Proof.
  pose proof (Z.mod_pos_bound n 10 ltac:(lia)) as Hk.
  unfold Calendar.digit_val. rewrite digit_char_code by assumption. lia.
Qed.

Lemma text_app_assoc (a b c : string) : ((a ++ b) ++ c = a ++ (b ++ c))%string.
Proof. induction a as [|x a IH]; simpl; [reflexivity | now rewrite IH]. Qed.

Lemma text_app_nil (a : string) : (a ++ "")%string = a.
Proof. induction a as [|x a IH]; simpl; [reflexivity | now rewrite IH]. Qed.

Lemma match_Y_zero_pad (y : Z) (rest : string) :
  0 <= y < 10000 ->
  Calendar.match_Y (Calendar.zero_pad 4 y ++ rest) = Some (y, rest).
Proof.
  intros Hy. cbn [Calendar.zero_pad]. rewrite !text_app_assoc.
  cbn [String.append Calendar.match_Y].
  rewrite !is_digit_digit_char, !digit_val_digit_char. cbn [andb].
  do 2 f_equal. Z.div_mod_to_equations. lia.
Qed.

Lemma match_m_zero_pad (m : Z) (rest : string) :
  1 <= m <= 12 ->
  Calendar.match_m (Calendar.zero_pad 2 m ++ rest) = Some (m, rest).
Proof.
  intros Hm. apply month_cases in Hm.
  repeat (destruct Hm as [-> | Hm]; [reflexivity|]). subst. reflexivity.
Qed.

Lemma match_d_zero_pad (d : Z) (rest : string) :
  1 <= d <= 31 ->
  Calendar.match_d (Calendar.zero_pad 2 d ++ rest) = Some (d, rest).
Proof.
  intros Hd.
  assert (Hc : d = 1 \/ d = 2 \/ d = 3 \/ d = 4 \/ d = 5 \/ d = 6 \/ d = 7 \/ d = 8
               \/ d = 9 \/ d = 10 \/ d = 11 \/ d = 12 \/ d = 13 \/ d = 14 \/ d = 15
               \/ d = 16 \/ d = 17 \/ d = 18 \/ d = 19 \/ d = 20 \/ d = 21 \/ d = 22
               \/ d = 23 \/ d = 24 \/ d = 25 \/ d = 26 \/ d = 27 \/ d = 28 \/ d = 29
               \/ d = 30 \/ d = 31) by lia.
  repeat (destruct Hc as [-> | Hc]; [reflexivity|]). subst. reflexivity.
Qed.

(** [strptime] reads the ISO text of a date back as that date. *)
Lemma strptime_isoformat (t : Calendar.ymd) :
  Calendar.valid t -> Calendar.strptime (Calendar.isoformat t) = inr t.
Proof.
  intros Hv. pose proof (valid_fields t Hv) as (Hy & Hm & Hd).
  pose proof (days_in_month_bound (Calendar.year t) (Calendar.month t) Hm) as Hdim.
  unfold Calendar.strptime, Calendar.isoformat.
  rewrite match_Y_zero_pad by lia. cbn [String.append Calendar.expect_dash].
  change (Ascii.eqb "-" "-") with true. cbv iota.
  rewrite match_m_zero_pad by lia. cbn [Calendar.expect_dash].
  change (Ascii.eqb "-" "-") with true. cbv iota.
  rewrite <- (text_app_nil (Calendar.zero_pad 2 (Calendar.day t))).
  rewrite match_d_zero_pad by lia. cbn [Py.truthy].
  unfold Calendar.valid in Hv. rewrite Hv. now destruct t.
Qed.

(** [strptime] returns dates only. *)
Lemma strptime_valid (s : string) (t : Calendar.ymd) :
  Calendar.strptime s = inr t -> Calendar.valid t.
Proof.
  unfold Calendar.strptime.
  destruct (Calendar.match_Y s) as [[y s1]|]; [|discriminate].
  destruct (Calendar.expect_dash s1) as [s2|]; [|discriminate].
  destruct (Calendar.match_m s2) as [[m s3]|]; [|discriminate].
  destruct (Calendar.expect_dash s3) as [s4|]; [|discriminate].
  destruct (Calendar.match_d s4) as [[d s5]|]; [|discriminate].
  destruct (Py.truthy s5); [discriminate|].
  destruct (Calendar.check_date_fields y m d) eqn:E; [|discriminate].
  intros [= <-]. exact E.
Qed.

(** X8.  The text the forms store for a date ([YYYY-MM-DD]) is read back by
    the validation helper as the same date: [strptime] of the ISO text of a
    valid date is that date, [strptime] never returns anything but a valid
    date, and [validate_expense_data] gives the same answer on the text of a
    date as on the date itself. *)
Theorem strptime_reads_isoformat :
  forall t : Calendar.ymd,
    Calendar.valid t ->
    Calendar.strptime (Calendar.isoformat t) = inr t
    /\ (forall s t', Calendar.strptime s = inr t' -> Calendar.valid t')
    /\ (forall today description amount category,
           Utils.validate_expense_data today description amount category
             (Utils.DateStr (Calendar.isoformat t))
           = Utils.validate_expense_data today description amount category
               (Utils.DateObj (Calendar.toordinal t))).
Proof.
  intros t Hv. split; [now apply strptime_isoformat | split; [apply strptime_valid|]].
  intros today description amount category.
  unfold Utils.validate_expense_data, Utils.parse_date, Utils.date_truthy.
  now rewrite strptime_isoformat, isoformat_truthy.
Qed.

Lemma strptime_reads_isoformat_witness :
  Calendar.valid {| Calendar.year := 2024; Calendar.month := 2; Calendar.day := 29 |}
  /\ Calendar.strptime "2024-02-29"
     = inr {| Calendar.year := 2024; Calendar.month := 2; Calendar.day := 29 |}.
Proof.
  split; [reflexivity|].
  exact (proj1 (strptime_reads_isoformat
                  {| Calendar.year := 2024; Calendar.month := 2; Calendar.day := 29 |}
                  eq_refl)).
Defined.

(** ** What passes the validation can be stored *)





(** ** Rowids are never reused *)






Lemma runs_reachable (calls : list (call * Sql.timestamp)) (db : database) :
  reachable db -> reachable (Trace.runs calls db).
Proof.
  revert db. induction calls as [|[c now] calls IH]; intros db Hr; simpl; [assumption|].
  apply IH. now constructor.
Qed.




(** ** Listings after a delete or an update *)





(** ** Groups add up *)




Section GroupTotals.
Context {R K : Type} (key : R -> K) (same : K -> K -> bool) (amount : R -> Q).
Hypothesis same_iff : forall a b, same a b = true <-> a = b.







End GroupTotals.


(** ** The monthly totals *)










Section MonthlyFacts.
Variable strftime_Y_m : string -> option string.



End MonthlyFacts.


(** ** From ordinals back to dates

    The year arithmetic of [_ord2ymd]. *)
Lemma days_before_year_cycles (a b c d : Z) :
  0 <= a -> 0 <= b <= 3 -> 0 <= c <= 24 -> 0 <= d <= 3 ->
  Calendar.days_before_year (400 * a + 100 * b + 4 * c + d + 1)
  = 146097 * a + 36524 * b + 1461 * c + 365 * d.
Proof.
  intros Ha Hb Hc Hd. unfold Calendar.days_before_year.
  Z.div_mod_to_equations. lia.
Qed.

Lemma is_leap_cycles (a b c d : Z) :
  0 <= a -> 0 <= b <= 3 -> 0 <= c <= 24 -> 0 <= d <= 3 ->
  Calendar.is_leap (400 * a + 100 * b + 4 * c + d + 1)
  = (d =? 3) && (negb (c =? 24) || (b =? 3)).
Proof.
  intros Ha Hb Hc Hd. unfold Calendar.is_leap.
  set (y := 400 * a + 100 * b + 4 * c + d + 1).
  destruct (Z.eqb_spec (y mod 4) 0), (Z.eqb_spec (y mod 100) 0), (Z.eqb_spec (y mod 400) 0),
    (Z.eqb_spec d 3), (Z.eqb_spec c 24), (Z.eqb_spec b 3); simpl; try reflexivity;
    exfalso; subst y; Z.div_mod_to_equations; lia.
Qed.

Lemma month_and_day_checked (leap : bool) :
  forallb (fun k => Datetime.month_and_day_ok leap (Z.of_nat k)) (seq 0 (if leap then 366 else 365)) = true.
Proof. destruct leap; vm_compute; reflexivity. Qed.

Lemma month_and_day_spec (leap : bool) (n : Z) :
  0 <= n < 365 + (if leap then 1 else 0) ->
  let '(m, d) := Datetime.month_and_day leap n in
  1 <= m <= 12
  /\ 1 <= d <= Calendar.DAYS_IN_MONTH m + (if (m =? 2) && leap then 1 else 0)
  /\ Calendar.DAYS_BEFORE_MONTH m + (if (2 <? m) && leap then 1 else 0) + d = n + 1.
Proof.
  intros Hn. pose proof (month_and_day_checked leap) as H.
  rewrite forallb_forall in H. specialize (H (Z.to_nat n)).
  rewrite Z2Nat.id in H by lia.
  assert (Hin : In (Z.to_nat n) (seq 0 (if leap then 366 else 365))).
  { apply in_seq. destruct leap; lia. }
  specialize (H Hin). unfold Datetime.month_and_day_ok in H.
  destruct (Datetime.month_and_day leap n) as [m d].
  rewrite !andb_true_iff, !Z.leb_le, Z.eqb_eq in H. lia.
Qed.

Lemma ord2ymd_spec (n : Z) :
  1 <= n <= Datetime.MAXORDINAL ->
  Calendar.valid (Datetime.ord2ymd n) /\ Calendar.toordinal (Datetime.ord2ymd n) = n.
Proof.
  unfold Datetime.MAXORDINAL. intros Hn. unfold Datetime.ord2ymd.
  unfold Datetime.DI400Y, Datetime.DI100Y, Datetime.DI4Y.
  set (n0 := n - 1).
  set (a := n0 / 146097). set (ra := n0 mod 146097).
  set (b := ra / 36524). set (rb := ra mod 36524).
  set (c := rb / 1461). set (rc := rb mod 1461).
  set (d := rc / 365). set (rd := rc mod 365).
  assert (Hparts : n0 = 146097 * a + 36524 * b + 1461 * c + 365 * d + rd
                   /\ 0 <= a /\ 0 <= b <= 4 /\ 0 <= c <= 24 /\ 0 <= d <= 4 /\ 0 <= rd <= 364
                   /\ (b = 4 -> c = 0 /\ d = 0 /\ rd = 0)
                   /\ (d = 4 -> rd = 0)
                   /\ (c = 24 -> b <= 3 -> d <= 3)).
  { subst a ra b rb c rc d rd n0. Z.div_mod_to_equations. lia. }
  assert (Hn0r : 0 <= n0 <= 3652058 /\ n = n0 + 1) by (subst n0; lia).
  clearbody a b c d rd n0. clear ra rb rc.
  destruct Hparts as (Hn0 & Ha & Hb & Hc & Hd & Hrd & Hb4 & Hd4 & Hc24).
  replace (a * 400 + 1 + b * 100 + c * 4 + d) with (400 * a + 100 * b + 4 * c + d + 1) by lia.
  destruct ((d =? 4) || (b =? 4)) eqn:Hex.
  - (* the last day of a leap year *)
    assert (Hlast : exists a' b' c' d',
               400 * a + 100 * b + 4 * c + d + 1 - 1 = 400 * a' + 100 * b' + 4 * c' + d' + 1
               /\ 0 <= a' /\ 0 <= b' <= 3 /\ 0 <= c' <= 24 /\ d' = 3
               /\ (c' = 24 -> b' = 3)
               /\ n0 = 146097 * a' + 36524 * b' + 1461 * c' + 365 * d' + 365).
    { apply orb_true_iff in Hex. rewrite !Z.eqb_eq in Hex.
      destruct (Z.eq_dec b 4) as [Eb | Eb].
      - exists a, 3, 24, 3. lia.
      - exists a, b, c, 3. lia. }
    destruct Hlast as (a' & b' & c' & d' & -> & Ha' & Hb' & Hc' & Hd' & Hcb & Hn0').
    assert (Hleap : Calendar.is_leap (400 * a' + 100 * b' + 4 * c' + d' + 1) = true).
    { rewrite is_leap_cycles by lia. subst d'. simpl.
      destruct (Z.eqb_spec c' 24), (Z.eqb_spec b' 3); simpl; try reflexivity. lia. }
    split.
    + unfold Calendar.valid, Calendar.check_date_fields, Calendar.days_in_month,
        Calendar.MINYEAR, Calendar.MAXYEAR.
      cbn [Calendar.year Calendar.month Calendar.day].
      change (12 =? 2) with false. cbn [andb Calendar.DAYS_IN_MONTH].
      rewrite !andb_true_iff, !Z.leb_le. lia.
    + unfold Calendar.toordinal, Calendar.ymd2ord, Calendar.days_before_month.
      cbn [Calendar.year Calendar.month Calendar.day].
      rewrite Hleap, days_before_year_cycles by lia.
      change (2 <? 12) with true. cbn [andb Calendar.DAYS_BEFORE_MONTH]. lia.
  - apply orb_false_iff in Hex. rewrite !Z.eqb_neq in Hex.
    assert (Hb3 : 0 <= b <= 3) by lia. assert (Hd3 : 0 <= d <= 3) by lia.
    rewrite <- (is_leap_cycles a b c d) by lia.
    set (y := 400 * a + 100 * b + 4 * c + d + 1).
    pose proof (month_and_day_spec (Calendar.is_leap y) rd ltac:(destruct (Calendar.is_leap y); lia)) as Hmd.
    destruct (Datetime.month_and_day (Calendar.is_leap y) rd) as [m dd].
    destruct Hmd as (Hm & Hdd & Hsum).
    split.
    + unfold Calendar.valid, Calendar.check_date_fields, Calendar.days_in_month,
        Calendar.MINYEAR, Calendar.MAXYEAR.
      cbn [Calendar.year Calendar.month Calendar.day].
      rewrite !andb_true_iff, !Z.leb_le.
      assert (Hy : 1 <= y <= 9999) by (subst y; lia).
      destruct ((m =? 2) && Calendar.is_leap y) eqn:E.
      * apply andb_true_iff in E. destruct E as [E El]. apply Z.eqb_eq in E. subst m.
        cbn [Calendar.DAYS_IN_MONTH] in Hdd. lia.
      * lia.
    + unfold Calendar.toordinal, Calendar.ymd2ord, Calendar.days_before_month.
      cbn [Calendar.year Calendar.month Calendar.day].
      subst y. rewrite days_before_year_cycles by lia. lia.
Qed.

Lemma toordinal_injective (s t : Calendar.ymd) :
  Calendar.valid s -> Calendar.valid t ->
  Calendar.toordinal s = Calendar.toordinal t -> s = t.
Proof.
  intros Hs Ht E. pose proof (toordinal_compare s t Hs Ht) as H.
  rewrite E, Z.compare_refl in H.
  destruct s as [ys ms ds], t as [yt mt dt]. cbn [Calendar.year Calendar.month Calendar.day] in H.
  destruct (Z.compare_spec ys yt); try discriminate.
  destruct (Z.compare_spec ms mt); try discriminate.
  apply Z.compare_eq_iff in H. congruence.
Qed.

Lemma toordinal_range (t : Calendar.ymd) :
  Calendar.valid t -> 1 <= Calendar.toordinal t <= Datetime.MAXORDINAL.
Proof.
  intros Hv. pose proof (day_of_year_bound t Hv) as Hd.
  apply valid_fields in Hv. destruct Hv as (Hy & _).
  unfold Calendar.toordinal, Calendar.ymd2ord, Datetime.MAXORDINAL.
  pose proof (days_before_year_mono 1 (Calendar.year t) ltac:(lia)) as Hlo.
  pose proof (days_before_year_mono (Calendar.year t + 1) 10000 ltac:(lia)) as Hhi.
  rewrite days_before_year_succ in Hhi.
  change (Calendar.days_before_year 1) with 0 in Hlo.
  change (Calendar.days_before_year 10000) with 3652059 in Hhi.
  destruct (Calendar.is_leap (Calendar.year t)); lia.
Qed.

Lemma fromordinal_toordinal (t : Calendar.ymd) :
  Calendar.valid t -> Datetime.fromordinal (Calendar.toordinal t) = t.
Proof.
  intros Hv. pose proof (toordinal_range t Hv) as Hr.
  destruct (ord2ymd_spec _ Hr) as [Hv' E].
  apply toordinal_injective; assumption.
Qed.

(** ** Dates moved by whole days *)

Lemma add_days_spec (t : Calendar.ymd) (k : Z) :
  Calendar.valid t ->
  if (0 <? Calendar.toordinal t + k) && (Calendar.toordinal t + k <=? Datetime.MAXORDINAL)
  then exists t', Datetime.add_days t k = inr t'
                  /\ Calendar.valid t'
                  /\ Calendar.toordinal t' = Calendar.toordinal t + k
  else Datetime.add_days t k = inl (Py.OverflowError "date value out of range").
Proof.
  intros Hv. unfold Datetime.add_days.
  destruct ((0 <? Calendar.toordinal t + k)
            && (Calendar.toordinal t + k <=? Datetime.MAXORDINAL)) eqn:E; [|reflexivity].
  apply andb_true_iff in E. rewrite Z.ltb_lt, Z.leb_le in E.
  destruct (ord2ymd_spec (Calendar.toordinal t + k) ltac:(lia)) as [Hv' Ho].
  exists (Datetime.fromordinal (Calendar.toordinal t + k)). auto.
Qed.

Lemma sub_days_back (t : Calendar.ymd) (k : Z) :
  Calendar.valid t -> 0 <= k < Calendar.toordinal t ->
  exists t', Datetime.sub_days t k = inr t'
             /\ Calendar.valid t'
             /\ Calendar.toordinal t' = Calendar.toordinal t - k.
Proof.
  intros Hv Hk. pose proof (add_days_spec t (- k) Hv) as H.
  pose proof (toordinal_range t Hv) as Hr.
  destruct (Z.ltb_spec 0 (Calendar.toordinal t + - k)); [|lia].
  destruct (Z.leb_spec (Calendar.toordinal t + - k) Datetime.MAXORDINAL); [|lia].
  destruct H as (t' & E & Hv' & Ho). exists t'. repeat split; [exact E | exact Hv' | lia].
Qed.

Lemma sub_days_overflow (t : Calendar.ymd) (k : Z) :
  Calendar.valid t -> Calendar.toordinal t <= k ->
  Datetime.sub_days t k = inl (Py.OverflowError "date value out of range").
Proof.
  intros Hv Hk. pose proof (add_days_spec t (- k) Hv) as H.
  destruct (Z.ltb_spec 0 (Calendar.toordinal t + - k)); [lia|]. exact H.
Qed.

Lemma replace_day_first (t : Calendar.ymd) :
  Calendar.valid t ->
  let first := {| Calendar.year := Calendar.year t; Calendar.month := Calendar.month t;
                  Calendar.day := 1 |} in
  Datetime.replace_day t 1 = inr first
  /\ Calendar.valid first
  /\ Calendar.toordinal first = Calendar.toordinal t - (Calendar.day t - 1).
Proof.
  intros Hv first. pose proof (valid_fields t Hv) as (Hy & Hm & Hd).
  pose proof (days_in_month_bound (Calendar.year t) (Calendar.month t) Hm) as Hb.
  assert (Hc : Calendar.check_date_fields (Calendar.year t) (Calendar.month t) 1 = true).
  { unfold Calendar.check_date_fields, Calendar.MINYEAR, Calendar.MAXYEAR.
    rewrite !andb_true_iff, !Z.leb_le. lia. }
  unfold Datetime.replace_day. rewrite Hc. repeat split.
  - exact Hc.
  - unfold Calendar.toordinal, Calendar.ymd2ord. cbn [Calendar.year Calendar.month Calendar.day first].
    lia.
Qed.

Lemma end_of_previous_month_spec (t : Calendar.ymd) :
  Calendar.valid t ->
  (Calendar.year t =? 1) && (Calendar.month t =? 1) = false ->
  Calendar.valid (Ranges.end_of_previous_month t)
  /\ Calendar.toordinal (Ranges.end_of_previous_month t) + 1
     = Calendar.toordinal {| Calendar.year := Calendar.year t; Calendar.month := Calendar.month t;
                             Calendar.day := 1 |}.
Proof.
  intros Hv Hne. pose proof (valid_fields t Hv) as (Hy & Hm & Hd).
  apply andb_false_iff in Hne. rewrite !Z.eqb_neq in Hne.
  unfold Ranges.end_of_previous_month, Calendar.valid, Calendar.check_date_fields,
    Calendar.MINYEAR, Calendar.MAXYEAR, Calendar.toordinal, Calendar.ymd2ord.
  destruct (Z.eqb_spec (Calendar.month t) 1) as [E | E];
    cbn [Calendar.year Calendar.month Calendar.day].
  - rewrite E. split.
    + rewrite !andb_true_iff, !Z.leb_le.
      pose proof (days_in_month_bound (Calendar.year t - 1) 12 ltac:(lia)).
      assert (H31 : Calendar.days_in_month (Calendar.year t - 1) 12 = 31).
      { unfold Calendar.days_in_month. change (12 =? 2) with false. reflexivity. }
      lia.
    + pose proof (days_before_year_succ (Calendar.year t - 1)) as Hs.
      replace (Calendar.year t - 1 + 1) with (Calendar.year t) in Hs by lia.
      pose proof (days_in_year (Calendar.year t - 1)) as Hdy.
      assert (H31 : Calendar.days_in_month (Calendar.year t - 1) 12 = 31).
      { unfold Calendar.days_in_month. change (12 =? 2) with false. reflexivity. }
      change (Calendar.days_before_month (Calendar.year t) 1) with 0. lia.
  - split.
    + rewrite !andb_true_iff, !Z.leb_le.
      pose proof (days_in_month_bound (Calendar.year t) (Calendar.month t - 1) ltac:(lia)). lia.
    + pose proof (days_before_month_succ (Calendar.year t) (Calendar.month t - 1) ltac:(lia)) as Hs.
      replace (Calendar.month t - 1 + 1) with (Calendar.month t) in Hs by lia. lia.
Qed.

(** X14.  [get_last_month_range] returns the first and the last day of the
    calendar month before today's: both are valid dates of the same month,
    which is December of the year before when today is in January, the first
    has day 1, the last is the last day of that month and the day before the
    first of today's month.  In January of year 1 there is no such month and
    the subtraction raises [OverflowError]. *)
Theorem get_last_month_range_spec (today : Calendar.ymd) :
  Calendar.valid today ->
  if (Calendar.year today =? 1) && (Calendar.month today =? 1)
  then Ranges.get_last_month_range today = inl (Py.OverflowError "date value out of range")
  else
    exists first last,
      Ranges.get_last_month_range today = inr (first, last)
      /\ Calendar.valid first /\ Calendar.valid last
      /\ (Calendar.year last, Calendar.month last)
         = (if Calendar.month today =? 1 then (Calendar.year today - 1, 12)
            else (Calendar.year today, Calendar.month today - 1))
      /\ Calendar.year first = Calendar.year last
      /\ Calendar.month first = Calendar.month last
      /\ Calendar.day first = 1
      /\ Calendar.day last = Calendar.days_in_month (Calendar.year last) (Calendar.month last)
      /\ Calendar.toordinal last = Calendar.toordinal today - Calendar.day today
      /\ Calendar.toordinal first <= Calendar.toordinal last < Calendar.toordinal today.
Proof.
  intros Hv. pose proof (valid_fields today Hv) as (Hy & Hm & Hd).
  destruct (replace_day_first today Hv) as (Efirst & Vfirst & Ofirst).
  unfold Ranges.get_last_month_range. rewrite Efirst. cbn [Datetime.bind].
  destruct ((Calendar.year today =? 1) && (Calendar.month today =? 1)) eqn:Hedge.
  - apply andb_true_iff in Hedge. rewrite !Z.eqb_eq in Hedge. destruct Hedge as [Ey Em].
    rewrite sub_days_overflow; [reflexivity | exact Vfirst |].
    rewrite Ey, Em. vm_compute. discriminate.
  - destruct (end_of_previous_month_spec today Hv Hedge) as [Vlast Olast].
    set (last := Ranges.end_of_previous_month today) in *.
    assert (Esub : Datetime.sub_days
                     {| Calendar.year := Calendar.year today;
                        Calendar.month := Calendar.month today; Calendar.day := 1 |} 1
                   = inr last).
    { pose proof (toordinal_range last Vlast) as Hr.
      destruct (sub_days_back _ 1 Vfirst ltac:(lia)) as (t' & E & Vt' & Ot').
      rewrite E. f_equal. apply toordinal_injective; [assumption | assumption | lia]. }
    rewrite Esub. cbn [Datetime.bind].
    destruct (replace_day_first last Vlast) as (Ef & Vf & Of).
    rewrite Ef. cbn [Datetime.bind].
    eexists _, last. split; [reflexivity|].
    pose proof (valid_fields last Vlast) as (Hyl & Hml & Hdl).
    cbn [Calendar.year Calendar.month Calendar.day].
    repeat split; try assumption; try reflexivity; try lia.
    + unfold last, Ranges.end_of_previous_month.
      destruct (Calendar.month today =? 1); reflexivity.
    + unfold last, Ranges.end_of_previous_month.
      destruct (Calendar.month today =? 1); cbn [Calendar.year Calendar.month Calendar.day];
        [|reflexivity].
      unfold Calendar.days_in_month. change (12 =? 2) with false. reflexivity.
Qed.

Lemma get_last_month_range_spec_witness :
  Calendar.valid {| Calendar.year := 2024; Calendar.month := 3; Calendar.day := 14 |}
  /\ exists first last,
       Ranges.get_last_month_range
         {| Calendar.year := 2024; Calendar.month := 3; Calendar.day := 14 |}
       = inr (first, last)
       /\ (Calendar.year last, Calendar.month last) = (2024, 2)
       /\ Calendar.day first = 1
       /\ Calendar.day last = Calendar.days_in_month (Calendar.year last) (Calendar.month last).
Proof.
  split; [reflexivity|].
  destruct (get_last_month_range_spec
              {| Calendar.year := 2024; Calendar.month := 3; Calendar.day := 14 |} eq_refl)
    as (first & last & E & _ & _ & Hym & _ & _ & Hd1 & Hdl & _).
  exists first, last. auto.
Defined.

Lemma weekday_range (t : Calendar.ymd) :
  Calendar.valid t -> 0 <= Datetime.weekday t < Calendar.toordinal t /\ Datetime.weekday t <= 6.
Proof.
  intros Hv. pose proof (toordinal_range t Hv) as Hr. unfold Datetime.weekday.
  Z.div_mod_to_equations. lia.
Qed.

Lemma replace_month_day_first (t : Calendar.ymd) :
  Calendar.valid t ->
  let first := {| Calendar.year := Calendar.year t; Calendar.month := 1; Calendar.day := 1 |} in
  Datetime.replace_month_day t 1 1 = inr first
  /\ Calendar.valid first
  /\ Calendar.toordinal first <= Calendar.toordinal t.
Proof.
  intros Hv first. pose proof (valid_fields t Hv) as (Hy & Hm & Hd).
  assert (Hc : Calendar.check_date_fields (Calendar.year t) 1 1 = true).
  { unfold Calendar.check_date_fields, Calendar.MINYEAR, Calendar.MAXYEAR, Calendar.days_in_month.
    change (1 =? 2) with false. cbn [andb Calendar.DAYS_IN_MONTH].
    rewrite !andb_true_iff, !Z.leb_le. lia. }
  unfold Datetime.replace_month_day. rewrite Hc. repeat split; [exact Hc|].
  unfold Calendar.toordinal, Calendar.ymd2ord. cbn [Calendar.year Calendar.month Calendar.day first].
  pose proof (days_before_month_mono (Calendar.year t) 1 (Calendar.month t)
                ltac:(lia) ltac:(lia) ltac:(lia)). lia.
Qed.

(** X15.  [get_date_range_options], from the 91st day of year 1 on, returns
    its seven ranges in the order of the literal; every range is made of
    valid dates, starts no later than it ends and ends no later than today;
    "This Week" starts on the Monday at most six days back, "This Month" and
    "This Year" on the first day of today's month and year, "Last 30 Days"
    and "Last 90 Days" exactly 30 and 90 days back, and "Last Month" is what
    [get_last_month_range] returns.  On the first 90 days of year 1 one of
    the subtractions leaves the calendar and the call raises
    [OverflowError]. *)
Theorem get_date_range_options_spec (today : Calendar.ymd) :
  Calendar.valid today ->
  if Calendar.toordinal today <=? 90
  then Ranges.get_date_range_options today
       = inl (Py.OverflowError "date value out of range")
  else
    exists this_week last_month last_30_days last_90_days,
      let ranges :=
        [ ("Today", (today, today));
          ("This Week", (this_week, today));
          ("This Month", ({| Calendar.year := Calendar.year today;
                             Calendar.month := Calendar.month today;
                             Calendar.day := 1 |}, today));
          ("Last Month", last_month);
          ("Last 30 Days", (last_30_days, today));
          ("Last 90 Days", (last_90_days, today));
          ("This Year", ({| Calendar.year := Calendar.year today; Calendar.month := 1;
                            Calendar.day := 1 |}, today)) ] in
      Ranges.get_date_range_options today = inr ranges
      /\ Ranges.get_last_month_range today = inr last_month
      /\ Datetime.weekday this_week = 0
      /\ Calendar.toordinal today - 6 <= Calendar.toordinal this_week
      /\ Calendar.toordinal last_30_days = Calendar.toordinal today - 30
      /\ Calendar.toordinal last_90_days = Calendar.toordinal today - 90
      /\ Forall (fun range : string * (Calendar.ymd * Calendar.ymd) =>
                   let '(_, (start, stop)) := range in
                   Calendar.valid start /\ Calendar.valid stop
                   /\ Calendar.toordinal start <= Calendar.toordinal stop
                      <= Calendar.toordinal today) ranges.
Proof.
  intros Hv. pose proof (valid_fields today Hv) as (Hy & Hm & Hd).
  pose proof (toordinal_range today Hv) as Hr.
  pose proof (weekday_range today Hv) as Hw.
  destruct (sub_days_back today (Datetime.weekday today) Hv ltac:(lia)) as (wk & Ewk & Vwk & Owk).
  destruct (replace_day_first today Hv) as (Emo & Vmo & Omo).
  destruct (replace_month_day_first today Hv) as (Eyr & Vyr & Oyr).
  pose proof (get_last_month_range_spec today Hv) as Hlast.
  unfold Ranges.get_date_range_options. rewrite Ewk, Emo. cbn [Datetime.bind].
  destruct (Z.leb_spec (Calendar.toordinal today) 90) as [Hsmall | Hbig].
  - destruct ((Calendar.year today =? 1) && (Calendar.month today =? 1)).
    + rewrite Hlast. reflexivity.
    + destruct Hlast as (first & last & -> & _). cbn [Datetime.bind].
      destruct (Z.le_gt_cases (Calendar.toordinal today) 30) as [H30 | H30].
      * rewrite sub_days_overflow by assumption. reflexivity.
      * destruct (sub_days_back today 30 Hv ltac:(lia)) as (d30 & -> & _).
        cbn [Datetime.bind]. rewrite sub_days_overflow by assumption. reflexivity.
  - destruct ((Calendar.year today =? 1) && (Calendar.month today =? 1)) eqn:Hedge.
    { exfalso. apply andb_true_iff in Hedge. rewrite !Z.eqb_eq in Hedge.
      destruct Hedge as [Ey Em]. pose proof (days_in_month_bound (Calendar.year today) 1 ltac:(lia)).
      unfold Calendar.toordinal, Calendar.ymd2ord in Hbig. rewrite Ey, Em in *.
      change (Calendar.days_before_year 1) with 0 in Hbig.
      change (Calendar.days_before_month 1 1) with 0 in Hbig. lia. }
    destruct Hlast as (first & last & Elast & Vf & Vl & _ & _ & _ & _ & _ & _ & Ofl).
    rewrite Elast. cbn [Datetime.bind].
    destruct (sub_days_back today 30 Hv ltac:(lia)) as (d30 & E30 & V30 & O30).
    destruct (sub_days_back today 90 Hv ltac:(lia)) as (d90 & E90 & V90 & O90).
    rewrite E30, E90, Eyr. cbn [Datetime.bind].
    exists wk, (first, last), d30, d90. cbv zeta.
    split; [reflexivity|]. split; [reflexivity|].
    split; [unfold Datetime.weekday in *; rewrite Owk; Z.div_mod_to_equations; lia|].
    split; [lia|]. split; [exact O30|]. split; [exact O90|].
    repeat constructor; try assumption; lia.
Qed.

Lemma get_date_range_options_spec_witness :
  Calendar.valid {| Calendar.year := 2024; Calendar.month := 3; Calendar.day := 14 |}
  /\ exists this_week last_30_days ranges,
       Ranges.get_date_range_options
         {| Calendar.year := 2024; Calendar.month := 3; Calendar.day := 14 |}
       = inr ranges
       /\ In ("This Week",
              (this_week, {| Calendar.year := 2024; Calendar.month := 3; Calendar.day := 14 |}))
            ranges
       /\ In ("Last 30 Days",
              (last_30_days, {| Calendar.year := 2024; Calendar.month := 3; Calendar.day := 14 |}))
            ranges
       /\ Datetime.weekday this_week = 0
       /\ Calendar.toordinal last_30_days = 738929.
Proof.
  split; [reflexivity|].
  destruct (get_date_range_options_spec
              {| Calendar.year := 2024; Calendar.month := 3; Calendar.day := 14 |} eq_refl)
    as (wk & lm & d30 & d90 & E & _ & Hwk & _ & H30 & _).
  exists wk, d30. eexists. split; [exact E|].
  split; [simpl; auto|]. split; [simpl; auto 10|]. split; [exact Hwk | exact H30].
Defined.

(** ** The application's forms *)

Lemma run_expense_dates (c : call) (now : Sql.timestamp) (db : database) (r : Expense.t) :
  In r (stored_expenses (run c now db)) ->
  In (Expense.date r) (map Expense.date (stored_expenses db))
  \/ Forms.call_date c = Some (Expense.date r).
Proof.
  destruct db as [te tb]. unfold stored_expenses.
  destruct c as [|d a c dt n|i d a c dt n|i|c a p d|i]; cbn [run Forms.call_date].
  - unfold init_db. simpl. destruct te as [t|]; simpl; [|tauto].
    intros H. left. now apply in_map.
  - unfold add_expense.
    destruct (negb (Py.truthy d) || Py.le a 0 || negb (Py.truthy c) || negb (Py.truthy dt));
      [simpl; destruct te; [intros H; left; now apply in_map | tauto]|].
    simpl. destruct te as [t|]; simpl; [|tauto].
    rewrite in_app_iff. intros [H | [<- | []]]; [left; now apply in_map | right; reflexivity].
  - unfold update_expense.
    destruct (negb (Py.truthy d) || Py.le a 0 || negb (Py.truthy c) || negb (Py.truthy dt));
      [simpl; destruct te; [intros H; left; now apply in_map | tauto]|].
    simpl. destruct te as [t|]; simpl; [|tauto].
    match goal with |- context [if ?b then _ else _] => destruct b end; simpl;
      [intros H; left; now apply in_map|].
    rewrite in_map_iff. intros (r0 & E & H0).
    destruct (Expense.id r0 =? i); subst r; [right; reflexivity | left; now apply in_map].
  - unfold delete_expense. simpl. destruct te as [t|]; simpl; [|tauto].
    match goal with |- context [if ?b then _ else _] => destruct b end; simpl;
      [intros H; left; now apply in_map|].
    rewrite filter_In. intros [H _]. left. now apply in_map.
  - unfold set_budget. destruct (negb (Py.truthy c) || Py.le a 0);
      [simpl; destruct te; [intros H; left; now apply in_map | tauto]|].
    simpl. destruct tb as [t|]; simpl; (destruct te; [intros H; left; now apply in_map | tauto]).
  - unfold delete_budget. simpl. destruct tb as [t|]; simpl;
      [match goal with |- context [if ?b then _ else _] => destruct b end; simpl|];
      (destruct te; [intros H; left; now apply in_map | tauto]).
Qed.

(** Every event is a call of the database module, or changes nothing. *)
Lemma handle_cases (e : Forms.event) (now : Sql.timestamp) (db : database) :
  Forms.handle e now db = db
  \/ exists c, Forms.handle e now db = run c now db
               /\ Forms.call_date c = option_map Forms.strftime_Y_m_d (Forms.date_of e).
Proof.
  destruct e as [|d a c dt n|i d a c dt n|i|c a p d|i]; cbn [Forms.handle Forms.date_of option_map].
  - right. now exists Call_init_db.
  - destruct (Py.truthy d && Py.lt 0 a && Py.truthy c); [right | now left].
    now exists (Call_add_expense d a c (Forms.strftime_Y_m_d dt) (Some n)).
  - right. now exists (Call_update_expense i d a c (Forms.strftime_Y_m_d dt) (Some n)).
  - right. now exists (Call_delete_expense i).
  - destruct (Py.truthy c && Py.lt 0 a); [right | now left].
    now exists (Call_set_budget c a p (Some d)).
  - right. now exists (Call_delete_budget i).
Qed.

Lemma forms_reachable (db : database) : Forms.reachable db -> reachable db.
Proof.
  induction 1 as [|e now db _ IH _]; [constructor|].
  destruct (handle_cases e now db) as [-> | (c & -> & _)]; [exact IH | now constructor].
Qed.

(** The dates on disk are those the date widgets produced. *)
Lemma forms_dates (db : database) :
  Forms.reachable db ->
  forall r, In r (stored_expenses db) ->
            exists day, Forms.date_input day /\ Expense.date r = Calendar.isoformat day.
Proof.
  induction 1 as [|e now db _ IH Hdate]; intros r Hr; [contradiction|].
  destruct (handle_cases e now db) as [E | (c & E & Hc)]; rewrite E in Hr; [now apply IH|].
  apply run_expense_dates in Hr. destruct Hr as [Hold | Hnew].
  - apply in_map_iff in Hold. destruct Hold as (r0 & E0 & H0). rewrite <- E0. now apply IH.
  - rewrite Hc in Hnew. destruct (Forms.date_of e) as [day|]; [|discriminate].
    injection Hnew as Hnew. exists day. split; [now apply Hdate | now symmetry].
Qed.

(** Rows in the order of their ISO dates are in the order of the calendar. *)
Lemma newer_first_calendar (a b : Expense.t) (da db : Calendar.ymd) :
  Calendar.valid da -> Calendar.valid db ->
  Expense.date a = Calendar.isoformat da -> Expense.date b = Calendar.isoformat db ->
  Spec.newer_first a b ->
  Calendar.toordinal db < Calendar.toordinal da
  \/ (da = db /\ Expense.created_at b <= Expense.created_at a).
Proof.
  intros Va Vb Ea Eb. unfold Spec.newer_first. rewrite Ea, Eb.
  rewrite (isoformat_order db da Vb Va). intros [Hlt | [Heq Hc]].
  - left. now apply Z.compare_lt_iff.
  - right. split; [|exact Hc].
    apply toordinal_injective; [assumption | assumption |].
    apply Z.compare_eq_iff. rewrite <- (isoformat_order da db Va Vb), Heq.
    apply text_compare_refl.
Qed.

Lemma calendar_days (l : list Expense.t) :
  (forall r, In r l ->
             exists day, Forms.date_input day /\ Expense.date r = Calendar.isoformat day) ->
  StronglySorted Spec.newer_first l ->
  exists days,
    map Expense.date l = map Calendar.isoformat days
    /\ Forall Forms.date_input days
    /\ StronglySorted (fun a b => Calendar.toordinal b <= Calendar.toordinal a) days.
Proof.
  induction l as [|r l IH]; intros Hiso Hs.
  - exists []. repeat constructor.
  - inversion Hs as [|? ? Hl Hr]; subst.
    destruct (IH (fun r' H' => Hiso r' (or_intror H')) Hl) as (days & Emap & Hv & Hsorted).
    destruct (Hiso r (or_introl eq_refl)) as (day & Hday & Eday).
    exists (day :: days). cbn [map]. rewrite Eday, Emap.
    split; [reflexivity|]. split; [now constructor|].
    constructor; [exact Hsorted|].
    apply Forall_forall. intros day' Hin.
    assert (Hin' : In (Calendar.isoformat day') (map Expense.date l)).
    { rewrite Emap. now apply in_map. }
    apply in_map_iff in Hin'. destruct Hin' as (r' & Er' & Hr').
    rewrite Forall_forall in Hr, Hv.
    destruct (newer_first_calendar r r' day day' (proj1 Hday) (proj1 (Hv day' Hin))
                Eday Er' (Hr r' Hr')) as [Hlt | [-> _]]; lia.
Qed.

(** X16.  A database filled through the application (the script's
    [init_db], the Add and Edit forms with dates from a date widget, the
    budget form and the delete buttons) is a reachable store; every date on
    disk is the ISO text of a calendar date a widget produced; and
    [get_expenses] therefore lists the expenses in the order of the calendar,
    latest day first. *)
Theorem forms_list_in_calendar_order :
  forall db : database,
    Forms.reachable db ->
    reachable db
    /\ (forall r, In r (stored_expenses db) ->
                  exists day, Forms.date_input day /\ Expense.date r = Calendar.isoformat day)
    /\ (exists days,
           map Expense.date (get_expenses db) = map Calendar.isoformat days
           /\ Forall Forms.date_input days
           /\ StronglySorted (fun a b => Calendar.toordinal b <= Calendar.toordinal a) days).
Proof.
  intros db H. split; [now apply forms_reachable|].
  split; [now apply forms_dates|].
  apply calendar_days.
  - intros r Hr. apply (forms_dates db H). rewrite get_expenses_eq in Hr.
    now apply order_by_In in Hr.
  - rewrite get_expenses_eq.
    apply (StronglySorted_weaken (fun a b => recent_first a b = true)).
    + intros a b. apply recent_first_iff.
    + apply order_by_sorted; [apply recent_first_total | apply recent_first_trans].
Qed.

Lemma forms_list_in_calendar_order_witness :
  Forms.reachable Forms.sample
  /\ map Expense.date (get_expenses Forms.sample) = ["2024-01-10"; "2024-01-05"]
  /\ exists days,
       map Expense.date (get_expenses Forms.sample) = map Calendar.isoformat days
       /\ StronglySorted (fun a b => Calendar.toordinal b <= Calendar.toordinal a) days.
Proof.
  assert (H : Forms.reachable Forms.sample).
  { unfold Forms.sample.
    repeat (apply Forms.reachable_event;
            [|intros date E;
              first [discriminate E | injection E as <-; split; [reflexivity | cbn; lia]]]).
    apply Forms.reachable_start. }
  split; [exact H | split; [reflexivity|]].
  destruct (forms_list_in_calendar_order Forms.sample H) as (_ & _ & days & E & _ & Hs).
  exists days. split; assumption.
Defined.
